(** * The Hoeffding tree command-line driver ([hoeffding_tree_main.cpp])

    A shallow embedding of [mlpackMain] and the properties of the driver:
    which model is constructed, how many passes are taken over the
    training set, when the run is aborted, which dataset information the
    test set is loaded under, and how the accuracy figures are computed.

    The driver is straight-line code over the command-line parameters and
    a [HoeffdingTreeModel].  It is embedded as a computation in a
    writer/error monad: the writer records every observable action in
    program order (log lines, model calls, assignments to output
    parameters), the error part records an abort ([Log::Fatal], an
    exception leaving a callee, an out-of-range read). *)

From Stdlib Require Import ZArith NArith List String Bool Lia.
From Stdlib Require Import Floats.SpecFloat.
Import ListNotations.

Set Implicit Arguments.
Open Scope Z_scope.

(* ================================================================== *)
(** ** Machine numbers *)

(** [size_t] is an unsigned 64-bit integer: a [Z] in [0, 2^64), every
    operation reduced modulo [2^64]. *)
Definition size_t_modulus : Z := 2 ^ 64.

Definition SIZE_MAX : Z := size_t_modulus - 1.

(** [(size_t) x] for an [int] x. *)
Definition to_size_t (x : Z) : Z := x mod size_t_modulus.

(** [--x] and [++x] on a [size_t]. *)
Definition size_t_pred (x : Z) : Z := (x - 1) mod size_t_modulus.
Definition size_t_succ (x : Z) : Z := (x + 1) mod size_t_modulus.

(** [int] is a signed 32-bit integer. *)
Definition is_int (x : Z) : Prop := - 2 ^ 31 <= x < 2 ^ 31.

(** [double] is IEEE 754 binary64, arithmetic rounding to nearest even. *)
Definition double : Type := spec_float.

Definition double_prec : Z := 53.
Definition double_emax : Z := 1024.

(** [double(n)] for an integer n. *)
Definition double_of_Z (n : Z) : double :=
  binary_normalize double_prec double_emax n 0 false.

Definition double_div (x y : double) : double :=
  SFdiv double_prec double_emax x y.

Definition double_mul (x y : double) : double :=
  SFmul double_prec double_emax x y.

(** The literals [0.95], [0.0], [1.0] and [100.0]. *)
Definition double_0_95 : double := S754_finite false 8556839292003942 (-53).
Definition double_0 : double := S754_zero false.
Definition double_1 : double := double_of_Z 1.
Definition double_100 : double := double_of_Z 100.

(** [0 < c && 1 > c] on doubles; false on NaN. *)
Definition in_open_unit_interval (c : double) : bool :=
  SFltb double_0 c &&
  match SFcompare double_1 c with
  | Some Gt => true
  | _ => false
  end.

(* ================================================================== *)
(** ** Data handed to the driver *)

(** Modelled from the spec: [data::DatasetInfo] is declared outside this
    file.  The spec's data model describes the schema as an ordered
    sequence of dimensions, each tagged categorical (with its arity) or
    numeric; a default-constructed [DatasetInfo] has no dimensions. *)
Inductive Dimension : Type :=
| categorical (arity : Z)
| numeric.

Definition DatasetInfo : Type := list Dimension.

Definition DatasetInfo_default : DatasetInfo := [].

(** Modelled from the spec: [DatasetInfo::NumMappings(i)], the number of
    category mappings of dimension i (none for a numeric dimension or a
    dimension the schema does not have). *)
Definition NumMappings (info : DatasetInfo) (i : nat) : Z :=
  match nth_error info i with
  | Some (categorical arity) => arity
  | _ => 0
  end.

(** [arma::mat]: column-major, one column per point. *)
Record mat : Type := {
  n_rows : nat;
  n_cols : nat;
  mem : list double
}.

Definition mat_empty : mat := {| n_rows := 0; n_cols := 0; mem := [] |}.

(** [arma::Row<size_t>] *)
Definition urow : Type := list Z.

Definition n_elem (r : urow) : Z := Z.of_nat (List.length r).

(** The four tree types of [HoeffdingTreeModel::TreeType]. *)
Inductive TreeType : Type :=
| GINI_HOEFFDING
| GINI_BINARY
| INFO_HOEFFDING
| INFO_BINARY.

(* ================================================================== *)
(** ** Observable actions and the driver monad *)

Inductive Failure : Type :=
| Fatal (message : string)        (* Log::Fatal *)
| Exception (callee : string)     (* an exception leaving a callee *)
| OutOfBounds.                    (* a read past the end of a row *)

Inductive Outcome (A : Type) : Type :=
| Done (a : A)
| Failed (f : Failure).

Arguments Failed {A} f.

Inductive Event : Type :=
| EvWarn (message : string)
| EvLoad (param : string) (info : DatasetInfo)
| EvInfoMappings (mappings : Z) (dimension : nat)
| EvTimerStart (name : string)
| EvTimerStop (name : string)
| EvDefaultModel
| EvInputModel
| EvNewModel (type : TreeType)
| EvBuildModel (numClasses : Z) (batchTraining : bool) (confidence : double)
    (maxSamples checkInterval minSamples bins observationsBeforeBinning : Z)
    (returned : bool)
| EvTrain (batchTraining : bool) (returned : bool)
| EvClassify (returned : bool)
| EvInfoCorrect (set : string) (correct total : Z) (percent : double)
| EvInfoNumNodes (nodes : Z)
| EvSetPredictions (predictions : urow)
| EvSetProbabilities (probabilities : list double)
| EvSetOutputModel.

Definition M (A : Type) : Type := Outcome A * list Event.

Definition ret {A} (a : A) : M A := (Done a, []).

Definition bind {A B} (m : M A) (f : A -> M B) : M B :=
  match m with
  | (Done a, t) => let (o, t') := f a in (o, t ++ t')
  | (Failed e, t) => (Failed e, t)
  end.

Definition emit (e : Event) : M unit := (Done tt, [e]).

Definition fail {A} (e : Failure) : M A := (Failed e, []).

Definition outcome {A} (m : M A) : Outcome A := fst m.
Definition trace {A} (m : M A) : list Event := snd m.

Declare Scope run_scope.
Delimit Scope run_scope with run.
Notation "x <- m ;; k" := (bind m (fun x => k))
  (at level 61, m at next level, right associativity) : run_scope.
Notation "' pat <- m ;; k" := (bind m (fun x => match x with pat => k end))
  (at level 61, pat pattern, m at next level, right associativity) : run_scope.
Notation "m ;; k" := (bind m (fun _ => k))
  (at level 61, right associativity) : run_scope.
Open Scope run_scope.

(** [if (c) body;] *)
Definition when (c : bool) (body : M unit) : M unit :=
  if c then body else ret tt.

(** [for (size_t i = 0; i < n; ++i) x = body(x);] for a body that does not
    read i. *)
Definition for_loop {A} (n : Z) (body : A -> M A) (x : A) : M A :=
  N.iter (Z.to_N n) (fun acc => y <- acc ;; body y) (ret x).

(** [for (size_t i = 0; i < n; ++i) body(i);] *)
Fixpoint for_each (indices : list nat) (body : nat -> M unit) : M unit :=
  match indices with
  | [] => ret tt
  | i :: rest => body i ;; for_each rest body
  end.

(* ================================================================== *)
(** ** The collaborators of the driver *)

(** [HoeffdingTreeModel] (hoeffding_tree_model.hpp) is used by the driver
    through two constructors and five member functions.  Their bodies are
    outside this file, so the driver is embedded over any implementation
    of this interface.  A call that returns [None] leaves by an
    exception. *)
Class HoeffdingTreeModelOps : Type := {
  HoeffdingTreeModel : Type;
  (** [HoeffdingTreeModel model;] *)
  Model_default : HoeffdingTreeModel;
  (** [HoeffdingTreeModel(type)] *)
  Model_of_type : TreeType -> HoeffdingTreeModel;
  (** [model.BuildModel(dataset, datasetInfo, labels, numClasses,
      batchTraining, successProbability, maxSamples, checkInterval,
      minSamples, bins, observationsBeforeBinning)] *)
  BuildModel : HoeffdingTreeModel -> mat -> DatasetInfo -> urow -> Z ->
               bool -> double -> Z -> Z -> Z -> Z -> Z ->
               option HoeffdingTreeModel;
  (** [model.Train(dataset, labels, batchTraining)] *)
  Train : HoeffdingTreeModel -> mat -> urow -> bool ->
          option HoeffdingTreeModel;
  (** [model.Classify(dataset, predictions)] *)
  Classify : HoeffdingTreeModel -> mat -> option urow;
  (** [model.Classify(dataset, predictions, probabilities)] *)
  ClassifyProbabilities : HoeffdingTreeModel -> mat ->
                          option (urow * list double);
  (** [model.NumNodes()] *)
  NumNodes : HoeffdingTreeModel -> Z
}.

(** A matrix-with-info parameter holds a file that [CLI::GetParam] loads
    on first access with [data::Load(file, matrix, info)]: the [info] the
    parameter holds at that moment is the one the file is read under, and
    the parameter then holds the loaded pair.  A load that fails is
    fatal. *)
Class MatrixLoader : Type := {
  MatrixFile : Type;
  data_Load : MatrixFile -> DatasetInfo -> option (DatasetInfo * mat)
}.

Section CommandLine.

Context {model_ops : HoeffdingTreeModelOps} {loader : MatrixLoader}.

(** The parameters as passed on the command line: [None] or [false] for a
    parameter that was not passed. *)
Record CLIParams : Type := {
  training : option MatrixFile;
  labels : option urow;
  confidence : option double;
  max_samples : option Z;
  min_samples : option Z;
  input_model : option HoeffdingTreeModel;
  output_model : bool;
  test : option MatrixFile;
  test_labels : option urow;
  predictions : bool;
  probabilities : bool;
  numeric_split_strategy : option string;
  batch_mode : bool;
  info_gain : bool;
  passes : option Z;
  bins : option Z;
  observations_before_binning : option Z
}.

Definition passed {A} (o : option A) : bool :=
  match o with Some _ => true | None => false end.

Definition value_or {A} (default : A) (o : option A) : A :=
  match o with Some a => a | None => default end.

(** [CLI::HasParam(name)] *)
Definition HasParam (p : CLIParams) (name : string) : bool :=
  if (name =? "training")%string then passed (training p)
  else if (name =? "labels")%string then passed (labels p)
  else if (name =? "confidence")%string then passed (confidence p)
  else if (name =? "max_samples")%string then passed (max_samples p)
  else if (name =? "min_samples")%string then passed (min_samples p)
  else if (name =? "input_model")%string then passed (input_model p)
  else if (name =? "output_model")%string then output_model p
  else if (name =? "test")%string then passed (test p)
  else if (name =? "test_labels")%string then passed (test_labels p)
  else if (name =? "predictions")%string then predictions p
  else if (name =? "probabilities")%string then probabilities p
  else if (name =? "numeric_split_strategy")%string
       then passed (numeric_split_strategy p)
  else if (name =? "batch_mode")%string then batch_mode p
  else if (name =? "info_gain")%string then info_gain p
  else if (name =? "passes")%string then passed (passes p)
  else if (name =? "bins")%string then passed (bins p)
  else if (name =? "observations_before_binning")%string
       then passed (observations_before_binning p)
  else false.

(** [CLI::GetParam<int>(name)], with the defaults of the [PARAM_INT_IN]
    declarations. *)
Definition GetParam_int (p : CLIParams) (name : string) : Z :=
  if (name =? "max_samples")%string then value_or 5000 (max_samples p)
  else if (name =? "min_samples")%string then value_or 100 (min_samples p)
  else if (name =? "passes")%string then value_or 1 (passes p)
  else if (name =? "bins")%string then value_or 10 (bins p)
  else if (name =? "observations_before_binning")%string
       then value_or 100 (observations_before_binning p)
  else 0.

(** [CLI::GetParam<double>(name)], default [0.95] for "confidence". *)
Definition GetParam_double (p : CLIParams) (name : string) : double :=
  if (name =? "confidence")%string then value_or double_0_95 (confidence p)
  else double_0.

(** [CLI::GetParam<string>(name)], default "binary" for
    "numeric_split_strategy". *)
Definition GetParam_string (p : CLIParams) (name : string) : string :=
  if (name =? "numeric_split_strategy")%string
  then value_or "binary"%string (numeric_split_strategy p)
  else ""%string.

(** [CLI::GetParam<arma::Row<size_t>>(name)] for the input rows. *)
Definition GetParam_urow (p : CLIParams) (name : string) : urow :=
  if (name =? "labels")%string then value_or [] (labels p)
  else if (name =? "test_labels")%string then value_or [] (test_labels p)
  else [].

(** [CLI::GetParam<TupleType>(name)] on a parameter whose file has not
    been loaded yet and which holds [info]. *)
Definition GetParam_tuple (name : string) (file : MatrixFile)
    (info : DatasetInfo) : M (DatasetInfo * mat) :=
  emit (EvLoad name info) ;;
  match data_Load file info with
  | Some loaded => ret loaded
  | None => fail (Fatal "unable to load the matrix")
  end.

(* ------------------------------------------------------------------ *)
(** *** Parameter checks (mlpack/core/util/param_checks.hpp) *)

(** The stream a failed check writes to: [Log::Fatal] ends the run,
    [Log::Warn] only prints. *)
Definition complain (fatal : bool) (message : string) : M unit :=
  if fatal then fail (Fatal message) else emit (EvWarn message).

Definition count_passed (p : CLIParams) (names : list string) : nat :=
  List.length (filter (HasParam p) names).

(** Modelled from the spec: [RequireAtLeastOnePassed] is defined outside
    this file.  The spec makes a run without the stated precondition
    fatal; the check complains, fatally when [fatal] is set, when none of
    the named parameters was passed. *)
Definition RequireAtLeastOnePassed (p : CLIParams) (names : list string)
    (fatal : bool) (message : string) : M unit :=
  if (count_passed p names =? 0)%nat then complain fatal message else ret tt.

(** Modelled from the spec: [RequireOnlyOnePassed] is defined outside
    this file; the check complains unless exactly one of the named
    parameters was passed. *)
Definition RequireOnlyOnePassed (p : CLIParams) (names : list string)
    (fatal : bool) (message : string) : M unit :=
  if (count_passed p names =? 1)%nat then ret tt else complain fatal message.

(** Modelled from the spec: [ReportIgnoredParam] is defined outside this
    file; it warns that [param] is ignored when [param] was passed and
    every listed parameter has the listed passed/not-passed state. *)
Definition ReportIgnoredParam (p : CLIParams)
    (constraints : list (string * bool)) (param : string) : M unit :=
  when (HasParam p param &&
        forallb (fun c => Bool.eqb (HasParam p (fst c)) (snd c)) constraints)
       (emit (EvWarn param)).

(** Modelled from the spec: [RequireParamInSet] is defined outside this
    file.  The spec makes an unknown strategy name an invalid
    configuration; the check complains, fatally when [fatal] is set, when
    the parameter's value is none of the listed ones. *)
Definition RequireParamInSet (p : CLIParams) (name : string)
    (set : list string) (fatal : bool) (message : string) : M unit :=
  if existsb (String.eqb (GetParam_string p name)) set
  then ret tt
  else complain fatal message.

End CommandLine.

(* ================================================================== *)
(** ** [mlpackMain] *)

Section Driver.

Context {model_ops : HoeffdingTreeModelOps} {loader : MatrixLoader}.

(** The local variables [model], [datasetInfo], [trainingSet] and
    [labels] of [mlpackMain]. *)
Record Locals : Type := {
  model : HoeffdingTreeModel;
  datasetInfo : DatasetInfo;
  trainingSet : mat;
  labelsRow : urow
}.

(** Lines 114-139: the checks on the parameters. *)
Definition check_parameters (p : CLIParams) : M unit :=
  RequireAtLeastOnePassed p ["training"; "input_model"]%string true "" ;;
  RequireAtLeastOnePassed p
    ["output_model"; "predictions"; "probabilities"; "test_labels"]%string
    false "no output will be given" ;;
  ReportIgnoredParam p [("test"%string, false)] "probabilities" ;;
  ReportIgnoredParam p [("test"%string, false)] "predictions" ;;
  when (HasParam p "training")
    (RequireOnlyOnePassed p ["labels"]%string true "") ;;
  ReportIgnoredParam p [("training"%string, false)] "batch_mode" ;;
  ReportIgnoredParam p [("training"%string, false)] "passes" ;;
  when (HasParam p "test")
    (RequireAtLeastOnePassed p
       ["predictions"; "probabilities"; "test_labels"]%string
       false "no output will be given") ;;
  RequireParamInSet p "numeric_split_strategy"
    ["domingos"; "binary"]%string true "unrecognized numeric split strategy".

(** The value of "numeric_split_strategy" is one of the two names line 138
    lists. *)
Definition known_strategy (p : CLIParams) : bool :=
  existsb (String.eqb (GetParam_string p "numeric_split_strategy"))
          ["domingos"; "binary"]%string.

(** [model = HoeffdingTreeModel(type);] *)
Definition new_model (type : TreeType) : M HoeffdingTreeModel :=
  emit (EvNewModel type) ;; ret (Model_of_type type).

(** Lines 141-161: the model is the input model or a new one of the
    requested type. *)
Definition initial_model (p : CLIParams) (numericSplitStrategy : string)
    : M HoeffdingTreeModel :=
  emit EvDefaultModel ;;
  match input_model p with
  | Some loaded => emit EvInputModel ;; ret loaded
  | None =>
      if negb (HasParam p "info_gain") &&
         (numericSplitStrategy =? "domingos")%string
      then new_model GINI_HOEFFDING
      else if negb (HasParam p "info_gain") &&
              (numericSplitStrategy =? "binary")%string
      then new_model GINI_BINARY
      else if HasParam p "info_gain" &&
              (numericSplitStrategy =? "domingos")%string
      then new_model INFO_HOEFFDING
      else if HasParam p "info_gain" &&
              (numericSplitStrategy =? "binary")%string
      then new_model INFO_BINARY
      else ret Model_default
  end.

(** [arma::max(labels)]; Armadillo throws on a row without elements. *)
Definition arma_max (r : urow) : M Z :=
  match r with
  | [] => fail (Exception "arma::max")
  | x :: rest => ret (fold_left Z.max rest x)
  end.

Definition call_BuildModel (m : HoeffdingTreeModel) (dataset : mat)
    (info : DatasetInfo) (labels : urow) (numClasses : Z)
    (batchTraining : bool) (successProbability : double)
    (maxSamples checkInterval minSamples bins observationsBeforeBinning : Z)
    : M HoeffdingTreeModel :=
  match BuildModel m dataset info labels numClasses batchTraining
          successProbability maxSamples checkInterval minSamples bins
          observationsBeforeBinning with
  | Some built =>
      emit (EvBuildModel numClasses batchTraining successProbability
              maxSamples checkInterval minSamples bins
              observationsBeforeBinning true) ;;
      ret built
  | None =>
      emit (EvBuildModel numClasses batchTraining successProbability
              maxSamples checkInterval minSamples bins
              observationsBeforeBinning false) ;;
      fail (Exception "BuildModel")
  end.

Definition call_Train (dataset : mat) (labels : urow) (batchTraining : bool)
    (m : HoeffdingTreeModel) : M HoeffdingTreeModel :=
  match Train m dataset labels batchTraining with
  | Some trained => emit (EvTrain batchTraining true) ;; ret trained
  | None => emit (EvTrain batchTraining false) ;; fail (Exception "Train")
  end.

Definition call_Classify (m : HoeffdingTreeModel) (dataset : mat) : M urow :=
  match Classify m dataset with
  | Some predicted => emit (EvClassify true) ;; ret predicted
  | None => emit (EvClassify false) ;; fail (Exception "Classify")
  end.

Definition call_ClassifyProbabilities (m : HoeffdingTreeModel)
    (dataset : mat) : M (urow * list double) :=
  match ClassifyProbabilities m dataset with
  | Some result => emit (EvClassify true) ;; ret result
  | None => emit (EvClassify false) ;; fail (Exception "Classify")
  end.

(** Lines 191-217: the passes over the training set.  [passes] and
    [batchTraining] are the locals after line 176. *)
Definition training_passes (p : CLIParams) (m : HoeffdingTreeModel)
    (trainingSet : mat) (datasetInfo : DatasetInfo) (labels : urow)
    (confidence : double) (maxSamples minSamples bins
    observationsBeforeBinning : Z) (batchTraining : bool) (passes : Z)
    : M HoeffdingTreeModel :=
  emit (EvTimerStart "tree_training") ;;
  '(m, passes) <-
     (if negb (HasParam p "input_model")
      then
        biggest <- arma_max labels ;;
        built <- call_BuildModel m trainingSet datasetInfo labels
                   (size_t_succ biggest) batchTraining confidence maxSamples
                   100 minSamples bins observationsBeforeBinning ;;
        ret (built, size_t_pred passes)
      else ret (m, passes)) ;;
  m <- (if batchTraining
        then
          if HasParam p "input_model"
          then call_Train trainingSet labels true m
          else ret m
        else for_loop passes (call_Train trainingSet labels false) m) ;;
  emit (EvTimerStop "tree_training") ;;
  ret m.

(** Line 174-176: the pass count and the batch flag the training uses. *)
Definition requested_passes (p : CLIParams) : Z :=
  to_size_t (GetParam_int p "passes").

Definition effective_batchTraining (p : CLIParams) : bool :=
  let batchTraining := HasParam p "batch_mode" in
  if 1 <? requested_passes p then false else batchTraining.

(** Lines 163-218: training, when a training set was passed. *)
Definition train (p : CLIParams) (m : HoeffdingTreeModel) : M Locals :=
  match training p with
  | None =>
      ret {| model := m; datasetInfo := DatasetInfo_default;
             trainingSet := mat_empty; labelsRow := [] |}
  | Some file =>
      let confidence := GetParam_double p "confidence" in
      let maxSamples := to_size_t (GetParam_int p "max_samples") in
      let minSamples := to_size_t (GetParam_int p "min_samples") in
      let bins := to_size_t (GetParam_int p "bins") in
      let observationsBeforeBinning :=
        to_size_t (GetParam_int p "observations_before_binning") in
      let passes := requested_passes p in
      let batchTraining := effective_batchTraining p in
      '(datasetInfo, trainingSet) <-
         GetParam_tuple "training" file DatasetInfo_default ;;
      for_each (seq 0 (n_rows trainingSet))
        (fun i => emit (EvInfoMappings (NumMappings datasetInfo i) i)) ;;
      let labels := GetParam_urow p "labels" in
      m <- training_passes p m trainingSet datasetInfo labels confidence
             maxSamples minSamples bins observationsBeforeBinning
             batchTraining passes ;;
      ret {| model := m; datasetInfo := datasetInfo;
             trainingSet := trainingSet; labelsRow := labels |}
  end.

(** The counting loops of lines 227-230 and 260-265:
    [for (size_t i = 0; i < labels.n_elem; ++i)
       if (labels[i] == predictions[i]) ++correct;]
    Armadillo's [operator[]] does not check the index; reading past the
    end of [predictions] is an out-of-range read. *)
Definition count_correct (labels predictions : urow) : M Z :=
  fold_left
    (fun acc i =>
       correct <- acc ;;
       match nth_error labels i, nth_error predictions i with
       | Some l, Some q =>
           ret (if l =? q then size_t_succ correct else correct)
       | _, _ => fail OutOfBounds
       end)
    (seq 0 (List.length labels)) (ret 0).

(** [double(correct) / double(total) * 100.0] *)
Definition percent_correct (correct total : Z) : double :=
  double_mul (double_div (double_of_Z correct) (double_of_Z total))
             double_100.

(** The [Log::Info] line of lines 232-234 and 266-268. *)
Definition report_correct (set : string) (labels predictions : urow)
    : M unit :=
  correct <- count_correct labels predictions ;;
  emit (EvInfoCorrect set correct (n_elem labels)
          (percent_correct correct (n_elem labels))).

(** Lines 220-235: the error on the training set. *)
Definition training_error (p : CLIParams) (l : Locals) : M unit :=
  when (HasParam p "training")
    (predictions <- call_Classify (model l) (trainingSet l) ;;
     report_correct "training set" (labelsRow l) predictions).

(** Lines 240-276: predictions for the test set. *)
Definition testing (p : CLIParams) (l : Locals) : M unit :=
  match test p with
  | None => ret tt
  | Some file =>
      '(_, testSet) <- GetParam_tuple "test" file (datasetInfo l) ;;
      emit (EvTimerStart "tree_testing") ;;
      '(predictions, probabilities) <-
         call_ClassifyProbabilities (model l) testSet ;;
      emit (EvTimerStop "tree_testing") ;;
      when (HasParam p "test_labels")
        (let testLabels := GetParam_urow p "test_labels" in
         report_correct "test set" testLabels predictions) ;;
      when (HasParam p "predictions") (emit (EvSetPredictions predictions)) ;;
      when (HasParam p "probabilities")
        (emit (EvSetProbabilities probabilities))
  end.

(** [mlpackMain] returns nothing; the embedding returns the locals as they
    are at the end, for the properties that speak of the final model. *)
Definition mlpackMain (p : CLIParams) : M Locals :=
  let numericSplitStrategy := GetParam_string p "numeric_split_strategy" in
  check_parameters p ;;
  m <- initial_model p numericSplitStrategy ;;
  l <- train p m ;;
  training_error p l ;;
  emit (EvInfoNumNodes (NumNodes (model l))) ;;
  testing p l ;;
  when (HasParam p "output_model") (emit EvSetOutputModel) ;;
  ret l.

(** The command line [p] with other values for "confidence",
    "max_samples" and "min_samples". *)
Definition with_configuration (c : option double) (maxS minS : option Z)
    (p : CLIParams) : CLIParams :=
  {| training := training p;
     labels := labels p;
     confidence := c;
     max_samples := maxS;
     min_samples := minS;
     input_model := input_model p;
     output_model := output_model p;
     test := test p;
     test_labels := test_labels p;
     predictions := predictions p;
     probabilities := probabilities p;
     numeric_split_strategy := numeric_split_strategy p;
     batch_mode := batch_mode p;
     info_gain := info_gain p;
     passes := passes p;
     bins := bins p;
     observations_before_binning := observations_before_binning p |}.

End Driver.

(* ================================================================== *)
(** ** Reading a trace *)

(** [m] emits no event of the given kind. *)
Definition quiet (kind : Event -> bool) {A} (m : M A) : Prop :=
  Forall (fun e => kind e = false) (trace m).

(** A pass over the training set: a [BuildModel] or [Train] call. *)
Definition is_training_event (e : Event) : bool :=
  match e with
  | EvBuildModel _ _ _ _ _ _ _ _ _ => true
  | EvTrain _ _ => true
  | _ => false
  end.

Definition training_events (t : list Event) : list Event :=
  filter is_training_event t.

(** [x] calls [BuildModel] or [Train] at most once. *)
Definition takes_at_most_one_pass {A} (x : M A) : Prop :=
  (List.length (training_events (trace x)) <= 1)%nat.

(** A pass taken in batch mode. *)
Definition is_batch_pass (e : Event) : bool :=
  match e with
  | EvBuildModel _ batchTraining _ _ _ _ _ _ _ => batchTraining
  | EvTrain batchTraining _ => batchTraining
  | _ => false
  end.

(** The passes that were completed, in order: by which call, and whether in
    batch mode. *)
Inductive Pass : Type :=
| ByBuildModel (batchTraining : bool)
| ByTrain (batchTraining : bool).

Fixpoint completed_passes (t : list Event) : list Pass :=
  match t with
  | [] => []
  | EvBuildModel _ b _ _ _ _ _ _ true :: rest =>
      ByBuildModel b :: completed_passes rest
  | EvTrain b true :: rest => ByTrain b :: completed_passes rest
  | _ :: rest => completed_passes rest
  end.

(** Any use of a model: construction, loading, training, classification. *)
Definition is_model_event (e : Event) : bool :=
  match e with
  | EvDefaultModel | EvInputModel | EvNewModel _ => true
  | EvBuildModel _ _ _ _ _ _ _ _ _ => true
  | EvTrain _ _ | EvClassify _ => true
  | _ => false
  end.

Definition is_warning (e : Event) : bool :=
  match e with EvWarn _ => true | _ => false end.

Definition is_classify (e : Event) : bool :=
  match e with EvClassify _ => true | _ => false end.

Definition is_load (e : Event) : bool :=
  match e with EvLoad _ _ => true | _ => false end.

Definition is_new_model (e : Event) : bool :=
  match e with EvNewModel _ => true | _ => false end.

(** The model types constructed by [HoeffdingTreeModel(type)]. *)
Fixpoint constructed_types (t : list Event) : list TreeType :=
  match t with
  | [] => []
  | EvNewModel type :: rest => type :: constructed_types rest
  | _ :: rest => constructed_types rest
  end.

(** The dataset info each matrix parameter was loaded under. *)
Fixpoint load_infos (t : list Event) : list (string * DatasetInfo) :=
  match t with
  | [] => []
  | EvLoad param info :: rest => (param, info) :: load_infos rest
  | _ :: rest => load_infos rest
  end.

(** The accuracy figures that were logged. *)
Fixpoint logged_accuracy (t : list Event)
    : list (string * Z * Z * double) :=
  match t with
  | [] => []
  | EvInfoCorrect set correct total percent :: rest =>
      (set, correct, total, percent) :: logged_accuracy rest
  | _ :: rest => logged_accuracy rest
  end.

(** The life cycle of the driver's [model] variable, followed along a
    trace.  The variable holds an untrained model after a constructor ran
    and a trained one once an input model was moved into it or
    [BuildModel] returned; a [BuildModel] that threw leaves it untrained.
    [None] reports a classification against an untrained model. *)
Inductive ModelState : Type :=
| Uninitialized
| Initialized.

Definition model_step (s : ModelState) (e : Event) : option ModelState :=
  match e with
  | EvDefaultModel | EvNewModel _ => Some Uninitialized
  | EvInputModel => Some Initialized
  | EvBuildModel _ _ _ _ _ _ _ _ returned =>
      Some (if returned then Initialized else Uninitialized)
  | EvClassify _ =>
      match s with
      | Initialized => Some Initialized
      | Uninitialized => None
      end
  | _ => Some s
  end.

Fixpoint model_run (s : ModelState) (t : list Event) : option ModelState :=
  match t with
  | [] => Some s
  | e :: rest =>
      match model_step s e with
      | Some s' => model_run s' rest
      | None => None
      end
  end.

(** [tracks s m Q]: started in state [s], the life cycle accepts the
    trace of [m], and if [m] returns [a] it ends in a state [s'] with
    [Q a s']. *)
Definition tracks {A} (s : ModelState) (m : M A)
    (Q : A -> ModelState -> Prop) : Prop :=
  exists s', model_run s (trace m) = Some s' /\
             forall a, outcome m = Done a -> Q a s'.

(** The events that move the life cycle, and those that can leave the
    variable with an untrained model. *)
Definition moves_model_state (e : Event) : bool :=
  match e with
  | EvDefaultModel | EvInputModel | EvNewModel _ => true
  | EvBuildModel _ _ _ _ _ _ _ _ _ => true
  | EvClassify _ => true
  | _ => false
  end.

Definition may_uninitialize (e : Event) : bool :=
  match e with
  | EvDefaultModel | EvNewModel _ => true
  | EvBuildModel _ _ _ _ _ _ _ _ returned => negb returned
  | _ => false
  end.

(** The number of positions at which the predicted label equals the
    supplied label, stated on the two rows rather than as a loop. *)
Definition matching_positions (labels predictions : urow) : Z :=
  Z.of_nat
    (List.length
       (filter (fun i => nth i labels 0 =? nth i predictions 0)
               (seq 0 (List.length labels)))).

(** An invalid configuration: a confidence outside [(0,1)], or a minimum
    number of samples above the maximum. *)
Definition invalid_configuration (confidence : double)
    (maxSamples minSamples : Z) : bool :=
  negb (in_open_unit_interval confidence) || (maxSamples <? minSamples).

(** The model type for a gain criterion and a numeric split strategy. *)
Definition tree_type_for (info_gain : bool) (strategy : string) : TreeType :=
  match info_gain, (strategy =? "domingos")%string with
  | false, true => GINI_HOEFFDING
  | false, false => GINI_BINARY
  | true, true => INFO_HOEFFDING
  | true, false => INFO_BINARY
  end.

Section FirstPass.

Context {model_ops : HoeffdingTreeModelOps} {loader : MatrixLoader}.

(** The passes of [x], if it takes any, start with a [BuildModel] call
    that is handed the configuration of the command line [p]; if that
    call throws, it is the only pass and [x] ends with its exception. *)
Definition starts_with_BuildModel (p : CLIParams) {A} (x : M A) : Prop :=
  training_events (trace x) = [] \/
  exists numClasses returned rest,
    training_events (trace x) =
      EvBuildModel numClasses (effective_batchTraining p)
        (GetParam_double p "confidence")
        (to_size_t (GetParam_int p "max_samples")) 100
        (to_size_t (GetParam_int p "min_samples"))
        (to_size_t (GetParam_int p "bins"))
        (to_size_t (GetParam_int p "observations_before_binning"))
        returned :: rest /\
    (returned = false ->
     rest = [] /\ outcome x = Failed (Exception "BuildModel")).

End FirstPass.

(* ================================================================== *)
(** ** Collaborators to run the driver on concrete command lines *)

(** A model that records how it was made: the type it was constructed
    with, the schema it was built under, and the passes it has seen (the
    batch flag of each). *)
Record RecordedModel : Type := {
  rec_type : option TreeType;
  rec_schema : DatasetInfo;
  rec_passes : list bool
}.

(** Modelled from the spec: [BuildModel] is defined outside this file;
    the spec has an invalid configuration (confidence outside (0,1),
    minimum above maximum samples) raised at model construction, and has
    classification return one label and one probability per point. *)
#[export] Instance recorded_ops : HoeffdingTreeModelOps := {|
  HoeffdingTreeModel := RecordedModel;
  Model_default :=
    {| rec_type := None; rec_schema := []; rec_passes := [] |};
  Model_of_type := fun type =>
    {| rec_type := Some type; rec_schema := []; rec_passes := [] |};
  BuildModel := fun m _ info _ _ batchTraining successProbability
                    maxSamples _ minSamples _ _ =>
    if invalid_configuration successProbability maxSamples minSamples
    then None
    else Some {| rec_type := rec_type m; rec_schema := info;
                 rec_passes := [batchTraining] |};
  Train := fun m _ _ batchTraining =>
    Some {| rec_type := rec_type m; rec_schema := rec_schema m;
            rec_passes := rec_passes m ++ [batchTraining] |};
  Classify := fun _ dataset => Some (repeat 0 (n_cols dataset));
  ClassifyProbabilities := fun _ dataset =>
    Some (repeat 0 (n_cols dataset), repeat double_1 (n_cols dataset));
  NumNodes := fun _ => 1
|}.

(** A file is given by what reading it yields: the schema found in it
    when none is pre-set, and its matrix.  A pre-set schema is kept. *)
#[export] Instance plain_loader : MatrixLoader := {|
  MatrixFile := DatasetInfo * mat;
  data_Load := fun file info =>
    Some (match info with [] => fst file | _ => info end, snd file)
|}.

(** Four points with one categorical feature of arity 2. *)
Definition four_points : mat :=
  {| n_rows := 1; n_cols := 4;
     mem := [double_0; double_1; double_0; double_1] |}.

Definition four_points_file : MatrixFile := ([categorical 2], four_points).

(** A model trained earlier, under the schema of [four_points_file]. *)
Definition saved_model : HoeffdingTreeModel :=
  {| rec_type := Some GINI_BINARY; rec_schema := [categorical 2];
     rec_passes := [false] |}.

(** [--training data --labels l --output_model out], to which the
    examples below add their options. *)
Definition run_with (input_model : option HoeffdingTreeModel)
    (confidence : option double) (max_samples min_samples : option Z)
    (numeric_split_strategy : option string) (batch_mode info_gain : bool)
    (passes : option Z) : CLIParams :=
  {| training := Some four_points_file;
     labels := Some [0; 1; 0; 1];
     confidence := confidence;
     max_samples := max_samples;
     min_samples := min_samples;
     input_model := input_model;
     output_model := true;
     test := None;
     test_labels := None;
     predictions := false;
     probabilities := false;
     numeric_split_strategy := numeric_split_strategy;
     batch_mode := batch_mode;
     info_gain := info_gain;
     passes := passes;
     bins := None;
     observations_before_binning := None |}.

(** [... --batch_mode --passes 3]: a new model, three passes. *)
Definition run_three_passes : CLIParams :=
  run_with None None None None None true false (Some 3).

(** The locals at the end of [run_three_passes]. *)
Definition locals_three_passes : Locals :=
  {| model := {| rec_type := Some GINI_BINARY;
                 rec_schema := [categorical 2];
                 rec_passes := [false; false; false] |};
     datasetInfo := [categorical 2];
     trainingSet := four_points;
     labelsRow := [0; 1; 0; 1] |}.

(** [... --passes 0]: a new model, a pass count of zero. *)
Definition run_zero_passes : CLIParams :=
  run_with None None None None None false false (Some 0).

(** [... --numeric_split_strategy foo]: an unknown strategy. *)
Definition run_strategy_foo : CLIParams :=
  run_with None None None None (Some "foo"%string) false false None.

(** [... --info_gain --numeric_split_strategy domingos]. *)
Definition run_info_domingos : CLIParams :=
  run_with None None None None (Some "domingos"%string) false true None.

(** [--input_model saved --test data --test_labels l --predictions out]
    with five test labels for the four test points. *)
Definition run_five_test_labels : CLIParams :=
  {| training := None;
     labels := None;
     confidence := None;
     max_samples := None;
     min_samples := None;
     input_model := Some saved_model;
     output_model := false;
     test := Some four_points_file;
     test_labels := Some [0; 0; 0; 0; 0];
     predictions := true;
     probabilities := false;
     numeric_split_strategy := None;
     batch_mode := false;
     info_gain := false;
     passes := None;
     bins := None;
     observations_before_binning := None |}.

(** [--input_model saved --test data --predictions out]: no training. *)
Definition run_test_only : CLIParams :=
  {| training := None;
     labels := None;
     confidence := None;
     max_samples := None;
     min_samples := None;
     input_model := Some saved_model;
     output_model := false;
     test := Some four_points_file;
     test_labels := None;
     predictions := true;
     probabilities := false;
     numeric_split_strategy := None;
     batch_mode := false;
     info_gain := false;
     passes := None;
     bins := None;
     observations_before_binning := None |}.

(** [--test data --predictions out]: neither a training set nor a model. *)
Definition run_without_model : CLIParams :=
  {| training := None;
     labels := None;
     confidence := None;
     max_samples := None;
     min_samples := None;
     input_model := None;
     output_model := false;
     test := Some four_points_file;
     test_labels := None;
     predictions := true;
     probabilities := false;
     numeric_split_strategy := None;
     batch_mode := false;
     info_gain := false;
     passes := None;
     bins := None;
     observations_before_binning := None |}.

Definition double_2 : double := double_of_Z 2.

(** [--training data --labels l --input_model saved --confidence 2
    --passes 2 --output_model out]: a confidence outside (0,1). *)
Definition run_confidence_2 : CLIParams :=
  run_with (Some saved_model) (Some double_2) None None None false false
           (Some 2).

(** [--training data --labels l --input_model saved --max_samples 10
    --min_samples 20 --output_model out]: a minimum above the maximum. *)
Definition run_min_above_max : CLIParams :=
  run_with (Some saved_model) None (Some 10) (Some 20) None false false None.

(* ================================================================== *)
(** ** Further readings of a run *)

(** Anything the test phase of lines 240-276 does: loading the test set,
    timing and logging its classification, assigning the predictions or
    the probabilities. *)
Definition is_test_event (e : Event) : bool :=
  match e with
  | EvLoad param _ => (param =? "test")%string
  | EvTimerStart name | EvTimerStop name => (name =? "tree_testing")%string
  | EvInfoCorrect set _ _ _ => (set =? "test set")%string
  | EvSetPredictions _ | EvSetProbabilities _ => true
  | _ => false
  end.

Definition is_output_model (e : Event) : bool :=
  match e with EvSetOutputModel => true | _ => false end.

(** [x], if it returns, ends by assigning the output model, and assigns
    it at no other moment; if it fails it never assigns it. *)
Definition ends_by_saving {A} (x : M A) : Prop :=
  (forall f, outcome x = Failed f -> quiet is_output_model x) /\
  (forall a, outcome x = Done a ->
     exists t, trace x = t ++ [EvSetOutputModel] /\
               Forall (fun e => is_output_model e = false) t).

(** The events of a trace other than warnings. *)
Definition without_warnings (t : list Event) : list Event :=
  filter (fun e => negb (is_warning e)) t.

(** [arma::max(labels) + 1] for a row with elements. *)
Definition num_classes (labels : urow) : Z :=
  match labels with
  | [] => 0
  | x :: rest => size_t_succ (fold_left Z.max rest x)
  end.

(** A [BuildModel] call with another class count than [numClasses] or
    another check interval than 100. *)
Definition is_other_BuildModel (numClasses : Z) (e : Event) : bool :=
  match e with
  | EvBuildModel k _ _ _ checkInterval _ _ _ _ =>
      negb ((k =? numClasses) && (checkInterval =? 100))
  | _ => false
  end.

Section Readings.

Context {model_ops : HoeffdingTreeModelOps} {loader : MatrixLoader}.

(** [n] streaming passes, each on the model the pass before returned;
    [None] once a pass has thrown. *)
Definition Train_passes (X : mat) (ls : urow) (n : Z)
    (m : HoeffdingTreeModel) : option HoeffdingTreeModel :=
  N.iter (Z.to_N n)
    (fun acc =>
       match acc with
       | Some m' => Train m' X ls false
       | None => None
       end)
    (Some m).

(** The model lines 193-215 leave in [model], as a composition of the
    model's member functions; [None] when a call throws. *)
Definition trained_model (p : CLIParams) (m : HoeffdingTreeModel) (X : mat)
    (info : DatasetInfo) : option HoeffdingTreeModel :=
  let ls := GetParam_urow p "labels" in
  match input_model p with
  | Some _ =>
      if effective_batchTraining p
      then Train m X ls true
      else Train_passes X ls (requested_passes p) m
  | None =>
      match ls with
      | [] => None
      | _ :: _ =>
          match BuildModel m X info ls (num_classes ls)
                  (effective_batchTraining p)
                  (GetParam_double p "confidence")
                  (to_size_t (GetParam_int p "max_samples")) 100
                  (to_size_t (GetParam_int p "min_samples"))
                  (to_size_t (GetParam_int p "bins"))
                  (to_size_t (GetParam_int p "observations_before_binning"))
          with
          | Some built =>
              if effective_batchTraining p
              then Some built
              else Train_passes X ls (size_t_pred (requested_passes p)) built
          | None => None
          end
      end
  end.

(** The model training starts from: the input model, or a new model of
    the type the options select. *)
Definition starting_model (p : CLIParams) : HoeffdingTreeModel :=
  match input_model p with
  | Some loaded => loaded
  | None =>
      Model_of_type
        (tree_type_for (info_gain p)
           (GetParam_string p "numeric_split_strategy"))
  end.

(** The command line [p] with other values for the options that only
    training reads. *)
Definition with_training_options (ls : option urow) (batch : bool)
    (n nbins obb : option Z) (p : CLIParams) : CLIParams :=
  {| training := training p;
     labels := ls;
     confidence := confidence p;
     max_samples := max_samples p;
     min_samples := min_samples p;
     input_model := input_model p;
     output_model := output_model p;
     test := test p;
     test_labels := test_labels p;
     predictions := predictions p;
     probabilities := probabilities p;
     numeric_split_strategy := numeric_split_strategy p;
     batch_mode := batch;
     info_gain := info_gain p;
     passes := n;
     bins := nbins;
     observations_before_binning := obb |}.

(** The command line [p] with other values for the two options that
    select the type of a new model. *)
Definition with_model_options (gain : bool) (strategy : option string)
    (p : CLIParams) : CLIParams :=
  {| training := training p;
     labels := labels p;
     confidence := confidence p;
     max_samples := max_samples p;
     min_samples := min_samples p;
     input_model := input_model p;
     output_model := output_model p;
     test := test p;
     test_labels := test_labels p;
     predictions := predictions p;
     probabilities := probabilities p;
     numeric_split_strategy := strategy;
     batch_mode := batch_mode p;
     info_gain := gain;
     passes := passes p;
     bins := bins p;
     observations_before_binning := observations_before_binning p |}.

End Readings.

(** [--training data --labels l --test data --predictions out
    --output_model out]: one pass, then predictions for the test set. *)
Definition run_train_and_test : CLIParams :=
  {| training := Some four_points_file;
     labels := Some [0; 1; 0; 1];
     confidence := None;
     max_samples := None;
     min_samples := None;
     input_model := None;
     output_model := true;
     test := Some four_points_file;
     test_labels := None;
     predictions := true;
     probabilities := false;
     numeric_split_strategy := None;
     batch_mode := false;
     info_gain := false;
     passes := None;
     bins := None;
     observations_before_binning := None |}.

(** The locals at the end of [run_train_and_test]. *)
Definition locals_one_pass : Locals :=
  {| model := {| rec_type := Some GINI_BINARY;
                 rec_schema := [categorical 2];
                 rec_passes := [false] |};
     datasetInfo := [categorical 2];
     trainingSet := four_points;
     labelsRow := [0; 1; 0; 1] |}.

(** [... --batch_mode --passes -1]: a negative pass count. *)
Definition run_minus_one_pass : CLIParams :=
  run_with None None None None None true false (Some (-1)).

(* ================================================================== *)
(** * Properties *)

(** ** The monad *)

Section MonadFacts.

Context {A B : Type}.

Lemma bind_ret (a : A) (f : A -> M B) : bind (ret a) f = f a.
Proof. unfold bind, ret. destruct (f a). reflexivity. Qed.

Lemma bind_fail e (f : A -> M B) : bind (fail e) f = fail e.
Proof. reflexivity. Qed.

Lemma bind_ext (m : M A) (f g : A -> M B) :
  (forall a, f a = g a) -> bind m f = bind m g.
Proof.
  intros H. destruct m as [[a | e] t]; simpl; [rewrite H |]; reflexivity.
Qed.

Lemma bind_emit e (k : unit -> M B) :
  bind (emit e) k = (outcome (k tt), e :: trace (k tt)).
Proof. unfold emit, bind. destruct (k tt). reflexivity. Qed.

Lemma outcome_bind (m : M A) (f : A -> M B) :
  outcome (bind m f) =
  match outcome m with
  | Done a => outcome (f a)
  | Failed e => Failed e
  end.
Proof.
  destruct m as [[a | e] t]; simpl; [destruct (f a) |]; reflexivity.
Qed.

Lemma trace_bind (m : M A) (f : A -> M B) :
  trace (bind m f) =
  trace m ++ match outcome m with
             | Done a => trace (f a)
             | Failed _ => []
             end.
Proof.
  destruct m as [[a | e] t]; simpl.
  - destruct (f a); reflexivity.
  - symmetry. apply app_nil_r.
Qed.

Lemma bind_failed (m : M A) (f : A -> M B) e :
  outcome m = Failed e -> bind m f = (Failed e, trace m).
Proof.
  destruct m as [[a | e'] t]; simpl; intros H; [discriminate |].
  injection H as ->. reflexivity.
Qed.

End MonadFacts.

Lemma bind_assoc {A B C} (m : M A) (f : A -> M B) (g : B -> M C) :
  bind (bind m f) g = bind m (fun a => bind (f a) g).
Proof.
  destruct m as [[a | e] t]; simpl; [| reflexivity].
  destruct (f a) as [[b | e] t']; simpl; [| reflexivity].
  destruct (g b) as [o t'']. rewrite app_assoc. reflexivity.
Qed.

(* ================================================================== *)
(** ** Computations that emit no event of a kind *)

Section Quiet.

Variable kind : Event -> bool.

Lemma quiet_ret {A} (a : A) : quiet kind (ret a).
Proof. constructor. Qed.

Lemma quiet_fail {A} e : quiet kind (@fail A e).
Proof. constructor. Qed.

Lemma quiet_emit e : kind e = false -> quiet kind (emit e).
Proof. intros H. repeat constructor. exact H. Qed.

Lemma quiet_bind {A B} (m : M A) (f : A -> M B) :
  quiet kind m -> (forall a, quiet kind (f a)) -> quiet kind (bind m f).
Proof.
  unfold quiet. intros Hm Hf. rewrite trace_bind. apply Forall_app.
  split; [exact Hm |]. destruct (outcome m); [apply Hf | constructor].
Qed.

Lemma quiet_when c (body : M unit) :
  quiet kind body -> quiet kind (when c body).
Proof. destruct c; simpl; [trivial | intros _; apply quiet_ret]. Qed.

Lemma quiet_for_each indices (body : nat -> M unit) :
  (forall i, quiet kind (body i)) -> quiet kind (for_each indices body).
Proof.
  intros Hbody. induction indices as [| i rest IH]; simpl.
  - apply quiet_ret.
  - apply quiet_bind; [apply Hbody | intros _; exact IH].
Qed.

Lemma quiet_for_loop {A} n (body : A -> M A) x :
  (forall y, quiet kind (body y)) -> quiet kind (for_loop n body x).
Proof.
  intros Hbody. unfold for_loop.
  induction (Z.to_N n) as [| k IH] using N.peano_ind.
  - apply quiet_ret.
  - rewrite N.iter_succ. apply quiet_bind; [exact IH | exact Hbody].
Qed.

End Quiet.

Ltac quiet_step :=
  match goal with
  | |- quiet _ (bind _ _) => apply quiet_bind; [| intros]
  | |- quiet _ (ret _) => apply quiet_ret
  | |- quiet _ (fail _) => apply quiet_fail
  | |- quiet _ (emit _) => apply quiet_emit; try reflexivity
  | |- quiet _ (when _ _) => apply quiet_when
  | |- quiet _ (for_each _ _) => apply quiet_for_each; intros
  | |- quiet _ (for_loop _ _ _) => apply quiet_for_loop; intros
  | |- quiet _ (match ?x with _ => _ end) => destruct x eqn:?
  end.

(* ================================================================== *)
(** ** Machine arithmetic *)

Lemma to_size_t_small x : 0 <= x < size_t_modulus -> to_size_t x = x.
Proof. intros H. unfold to_size_t. apply Z.mod_small. exact H. Qed.

Lemma int_is_size_t x : is_int x -> 0 <= x -> to_size_t x = x.
Proof.
  unfold is_int. intros H H0. apply to_size_t_small.
  unfold size_t_modulus. lia.
Qed.

Lemma size_t_pred_pos x :
  0 < x < size_t_modulus -> size_t_pred x = x - 1.
Proof. intros H. unfold size_t_pred. apply Z.mod_small. lia. Qed.

(* ================================================================== *)
(** ** The driver *)

(** The counting loop logs nothing. *)
Lemma count_correct_trace labels predictions :
  trace (count_correct labels predictions) = [].
Proof.
  unfold count_correct.
  assert (H : forall xs (acc : M Z), trace acc = [] ->
            trace (fold_left
              (fun acc i =>
                 correct <- acc ;;
                 match nth_error labels i, nth_error predictions i with
                 | Some l, Some q =>
                     ret (if l =? q then size_t_succ correct else correct)
                 | _, _ => fail OutOfBounds
                 end) xs acc) = []).
  { induction xs as [| i rest IH]; intros acc Hacc; simpl; [exact Hacc |].
    apply IH. rewrite trace_bind, Hacc. simpl.
    destruct (outcome acc); [| reflexivity].
    destruct (nth_error labels i), (nth_error predictions i); reflexivity. }
  apply H. reflexivity.
Qed.

Lemma quiet_count_correct kind labels predictions :
  quiet kind (count_correct labels predictions).
Proof. unfold quiet. rewrite count_correct_trace. constructor. Qed.

Ltac unfold_driver :=
  unfold mlpackMain, check_parameters, initial_model, new_model, train,
    training_passes, training_error, testing, report_correct,
    GetParam_tuple, RequireAtLeastOnePassed,
    RequireOnlyOnePassed, ReportIgnoredParam, RequireParamInSet, complain,
    arma_max, call_BuildModel, call_Train, call_Classify,
    call_ClassifyProbabilities.

Ltac quiet_driver :=
  unfold_driver;
  repeat first [apply quiet_count_correct | quiet_step];
  try assumption; try reflexivity.

Section DriverFacts.

Context {model_ops : HoeffdingTreeModelOps} {loader : MatrixLoader}.

(** The parameter checks only warn. *)
Lemma check_parameters_warns p :
  quiet (fun e => negb (is_warning e)) (check_parameters p).
Proof. quiet_driver. Qed.

Lemma check_parameters_no_model_event p :
  quiet is_model_event (check_parameters p).
Proof. quiet_driver. Qed.

(** A run whose pass count exceeds one takes no pass in batch mode. *)
Lemma requested_passes_many p n :
  passes p = Some n -> is_int n -> 1 < n ->
  requested_passes p = n /\ effective_batchTraining p = false.
Proof.
  intros Hp Hint Hn.
  unfold effective_batchTraining, requested_passes, GetParam_int.
  simpl. rewrite Hp. simpl. rewrite int_is_size_t by (trivial; lia).
  split; [reflexivity |]. apply Z.ltb_lt in Hn. rewrite Hn. reflexivity.
Qed.

Lemma streaming_run_takes_no_batch_pass p :
  effective_batchTraining p = false ->
  quiet is_batch_pass (mlpackMain p).
Proof. intros Hstream. unfold mlpackMain, train. rewrite Hstream. quiet_driver. Qed.

Lemma training_events_app t1 t2 :
  training_events (t1 ++ t2) = training_events t1 ++ training_events t2.
Proof. apply filter_app. Qed.

Lemma training_events_quiet {A} (m : M A) :
  quiet is_training_event m -> training_events (trace m) = [].
Proof.
  unfold quiet, training_events.
  induction (trace m) as [| e t IH]; intros H; [reflexivity |].
  inversion H as [| e' t' He Ht]; subst. simpl. rewrite He. apply IH, Ht.
Qed.

Lemma one_pass_quiet {A} (m : M A) :
  quiet is_training_event m -> takes_at_most_one_pass m.
Proof.
  intros H. unfold takes_at_most_one_pass.
  rewrite training_events_quiet by exact H. simpl. lia.
Qed.

Lemma one_pass_after_quiet {A B} (m : M A) (f : A -> M B) :
  quiet is_training_event m ->
  (forall a, takes_at_most_one_pass (f a)) ->
  takes_at_most_one_pass (bind m f).
Proof.
  intros Hq Hf. unfold takes_at_most_one_pass in *.
  rewrite trace_bind, training_events_app, training_events_quiet by exact Hq.
  destruct (outcome m) as [a | e]; [apply Hf | simpl; lia].
Qed.

Lemma one_pass_before_quiet {A B} (m : M A) (f : A -> M B) :
  takes_at_most_one_pass m ->
  (forall a, quiet is_training_event (f a)) ->
  takes_at_most_one_pass (bind m f).
Proof.
  intros Hm Hf. unfold takes_at_most_one_pass in *.
  rewrite trace_bind, training_events_app.
  destruct (outcome m) as [a | e].
  - rewrite (training_events_quiet (Hf a)), app_nil_r. exact Hm.
  - rewrite app_nil_r. exact Hm.
Qed.

(** In batch mode the training phase is one call: [BuildModel] for a new
    model, [Train] for an input model. *)
Lemma batch_training_takes_one_pass p m :
  effective_batchTraining p = true ->
  takes_at_most_one_pass (train p m).
Proof.
  intros Hbatch. unfold train. rewrite Hbatch.
  destruct (training p) as [file |]; [| apply one_pass_quiet; quiet_driver].
  apply one_pass_after_quiet; [quiet_driver |]. intros [info X].
  apply one_pass_after_quiet; [quiet_driver |]. intros [].
  apply one_pass_before_quiet; [| intros; quiet_driver].
  unfold training_passes.
  change (HasParam p "input_model") with (passed (input_model p)).
  apply one_pass_after_quiet; [quiet_driver |]. intros [].
  destruct (input_model p) as [loaded |]; cbn [passed negb].
  - rewrite bind_ret.
    apply one_pass_before_quiet; [| intros; quiet_driver].
    unfold call_Train, takes_at_most_one_pass.
    destruct (Train m X (GetParam_urow p "labels") true); simpl; lia.
  - apply one_pass_before_quiet; [| intros [built left]; quiet_driver].
    apply one_pass_after_quiet; [quiet_driver |]. intros biggest.
    apply one_pass_before_quiet; [| intros; quiet_driver].
    unfold call_BuildModel, takes_at_most_one_pass.
    match goal with
    | |- context [BuildModel ?a ?b ?c ?d ?e ?f ?g ?h ?i ?j ?k ?l] =>
        destruct (BuildModel a b c d e f g h i j k l)
    end; simpl; lia.
Qed.

Lemma batch_run_takes_one_pass p :
  effective_batchTraining p = true ->
  takes_at_most_one_pass (mlpackMain p).
Proof.
  intros Hbatch. unfold mlpackMain.
  apply one_pass_after_quiet; [quiet_driver |]. intros [].
  apply one_pass_after_quiet; [quiet_driver |]. intros m.
  apply one_pass_before_quiet;
    [apply batch_training_takes_one_pass, Hbatch | intros l; quiet_driver].
Qed.

(** C1: in a run with a training set and a requested pass count above
    one, the batch flag the training uses is false whatever [batch_mode]
    says, and no pass of the run, neither [BuildModel] nor any [Train], is
    taken in batch mode.  So in no run at all does a batch pass come with
    another pass: a run in which some [BuildModel] or [Train] call is made
    in batch mode makes at most that one call. *)
Theorem C1_many_passes_force_streaming (p : CLIParams) (file : MatrixFile)
    (n : Z) :
  training p = Some file ->
  passes p = Some n -> is_int n -> 1 < n ->
  effective_batchTraining p = false /\
  Forall (fun e => is_batch_pass e = false) (trace (mlpackMain p)) /\
  (forall q : CLIParams,
     Exists (fun e => is_batch_pass e = true) (trace (mlpackMain q)) ->
     takes_at_most_one_pass (mlpackMain q)).
Proof.
  intros _ Hp Hint Hn.
  destruct (requested_passes_many p Hp Hint Hn) as [_ Hstream].
  split; [exact Hstream |].
  split; [apply streaming_run_takes_no_batch_pass, Hstream |].
  intros q Hbatch.
  destruct (effective_batchTraining q) eqn:Hq;
    [apply batch_run_takes_one_pass, Hq |].
  exfalso. apply Exists_exists in Hbatch as (e & He & Hb).
  pose proof (streaming_run_takes_no_batch_pass q Hq) as Hquiet.
  unfold quiet in Hquiet. rewrite Forall_forall in Hquiet.
  rewrite (Hquiet e He) in Hb. discriminate.
Qed.

(** *** The parameter checks *)

Lemma outcome_when_warning c e : outcome (when c (emit e)) = Done tt.
Proof. destruct c; reflexivity. Qed.

Lemma outcome_ReportIgnoredParam p constraints param :
  outcome (ReportIgnoredParam p constraints param) = Done tt.
Proof. apply outcome_when_warning. Qed.

Lemma outcome_RequireAtLeastOnePassed_warning p names message :
  outcome (RequireAtLeastOnePassed p names false message) = Done tt.
Proof.
  unfold RequireAtLeastOnePassed.
  destruct (count_passed p names =? 0)%nat; reflexivity.
Qed.

(** The three fatal checks, in program order, decide the outcome. *)
Lemma check_parameters_outcome p :
  outcome (check_parameters p) =
  if negb (passed (training p) || passed (input_model p))
  then Failed (Fatal "")
  else if passed (training p) && negb (passed (labels p))
  then Failed (Fatal "")
  else if known_strategy p
  then Done tt
  else Failed (Fatal "unrecognized numeric split strategy").
Proof.
  unfold check_parameters.
  rewrite outcome_bind.
  unfold RequireAtLeastOnePassed at 1, count_passed.
  cbn [filter].
  change (HasParam p "training") with (passed (training p)).
  change (HasParam p "input_model") with (passed (input_model p)).
  assert (Hrest : forall k : M unit,
    outcome (RequireAtLeastOnePassed p
           ["output_model"; "predictions"; "probabilities"; "test_labels"]%string
           false "no output will be given";;
         ReportIgnoredParam p [("test"%string, false)] "probabilities";;
         ReportIgnoredParam p [("test"%string, false)] "predictions";; k) = outcome k).
  { intros k. rewrite outcome_bind, outcome_RequireAtLeastOnePassed_warning.
    rewrite outcome_bind, outcome_ReportIgnoredParam.
    rewrite outcome_bind, outcome_ReportIgnoredParam. reflexivity. }
  rewrite Hrest. clear Hrest.
  assert (Htail :
    outcome (ReportIgnoredParam p [("training"%string, false)] "batch_mode";;
         ReportIgnoredParam p [("training"%string, false)] "passes";;
         when (HasParam p "test")
           (RequireAtLeastOnePassed p
              ["predictions"; "probabilities"; "test_labels"]%string
              false "no output will be given");;
         RequireParamInSet p "numeric_split_strategy"
           ["domingos"; "binary"]%string true
           "unrecognized numeric split strategy") =
    if known_strategy p then Done tt
    else Failed (Fatal "unrecognized numeric split strategy")).
  { rewrite outcome_bind, outcome_ReportIgnoredParam.
    rewrite outcome_bind, outcome_ReportIgnoredParam.
    rewrite outcome_bind.
    replace (outcome (when (HasParam p "test") _)) with (Done (A:=unit) tt)
      by (destruct (HasParam p "test"); simpl;
          [rewrite outcome_RequireAtLeastOnePassed_warning |]; reflexivity).
    unfold RequireParamInSet, known_strategy.
    destruct (existsb _ _); reflexivity. }
  rewrite outcome_bind, Htail. clear Htail.
  unfold RequireOnlyOnePassed, count_passed. cbn [filter].
  change (HasParam p "labels") with (passed (labels p)).
  destruct (passed (training p)), (passed (input_model p)),
    (passed (labels p)); reflexivity.
Qed.

(** A run that fails its parameter checks ends there. *)
Lemma mlpackMain_checks_failed p e :
  outcome (check_parameters p) = Failed e ->
  mlpackMain p = (Failed e, trace (check_parameters p)).
Proof. intros H. unfold mlpackMain. apply bind_failed, H. Qed.

Lemma unknown_strategy p s :
  numeric_split_strategy p = Some s ->
  s <> "domingos"%string -> s <> "binary"%string ->
  known_strategy p = false.
Proof.
  intros Hs Hd Hb. unfold known_strategy, GetParam_string. simpl.
  rewrite Hs. simpl.
  apply String.eqb_neq in Hd. apply String.eqb_neq in Hb.
  rewrite Hd, Hb. reflexivity.
Qed.

(** C5: a run given a numeric split strategy other than 'domingos' and
    'binary' ends in a fatal error raised by the parameter checks; up to
    that point it has only printed warnings: no model was constructed or
    loaded and no training or classification call was made. *)
Theorem C5_unknown_strategy_is_fatal (p : CLIParams) (s : string) :
  numeric_split_strategy p = Some s ->
  s <> "domingos"%string -> s <> "binary"%string ->
  (exists message, outcome (mlpackMain p) = Failed (Fatal message)) /\
  trace (mlpackMain p) = trace (check_parameters p) /\
  Forall (fun e => is_warning e = true /\ is_model_event e = false)
         (trace (mlpackMain p)).
Proof.
  intros Hs Hd Hb.
  pose proof (unknown_strategy p Hs Hd Hb) as Hunknown.
  pose proof (check_parameters_outcome p) as Hout.
  rewrite Hunknown in Hout.
  assert (Hfail : exists message,
             outcome (check_parameters p) = Failed (Fatal message)).
  { destruct (negb _); [eauto |]. destruct (_ && _); eauto. }
  destruct Hfail as [message Hfail].
  rewrite (mlpackMain_checks_failed p Hfail). simpl.
  split; [eauto |]. split; [reflexivity |].
  pose proof (check_parameters_warns p) as Hw.
  pose proof (check_parameters_no_model_event p) as Hm.
  unfold quiet in Hw, Hm. rewrite Forall_forall in *.
  intros e He. split; [| apply Hm, He].
  specialize (Hw e He). simpl in Hw. apply negb_false_iff, Hw.
Qed.

(** *** The model the run starts from *)

Lemma constructed_types_app t1 t2 :
  constructed_types (t1 ++ t2) = constructed_types t1 ++ constructed_types t2.
Proof.
  induction t1 as [| e t1 IH]; simpl; [reflexivity |].
  destruct e; simpl; rewrite IH; reflexivity.
Qed.

Lemma quiet_constructed_types {A} (m : M A) :
  quiet is_new_model m -> constructed_types (trace m) = [].
Proof.
  unfold quiet. induction (trace m) as [| e t IH]; intros H; [reflexivity |].
  inversion H as [| e' t' He Ht]; subst.
  destruct e; simpl in *; try discriminate; apply IH, Ht.
Qed.

Lemma known_strategy_cases p :
  known_strategy p = true ->
  GetParam_string p "numeric_split_strategy" = "domingos"%string \/
  GetParam_string p "numeric_split_strategy" = "binary"%string.
Proof.
  unfold known_strategy. simpl. intros H.
  apply orb_true_iff in H. destruct H as [H | H].
  - left. apply String.eqb_eq, H.
  - right. rewrite orb_false_r in H. apply String.eqb_eq, H.
Qed.

Lemma checks_passed p :
  outcome (check_parameters p) = Done tt ->
  (passed (training p) || passed (input_model p) = true) /\
  (passed (training p) = true -> passed (labels p) = true) /\
  known_strategy p = true.
Proof.
  rewrite check_parameters_outcome.
  destruct (passed (training p)), (passed (input_model p)),
    (passed (labels p)), (known_strategy p); simpl;
    intros H; try discriminate; repeat split; trivial.
Qed.

(** With a known strategy and no input model, lines 150-161 construct the
    model of the type the two options select. *)
Lemma initial_model_new p :
  input_model p = None ->
  known_strategy p = true ->
  initial_model p (GetParam_string p "numeric_split_strategy") =
  (Done (Model_of_type
           (tree_type_for (info_gain p)
              (GetParam_string p "numeric_split_strategy"))),
   [EvDefaultModel;
    EvNewModel (tree_type_for (info_gain p)
                  (GetParam_string p "numeric_split_strategy"))]).
Proof.
  intros Hnone Hknown. unfold initial_model. rewrite Hnone.
  change (HasParam p "info_gain") with (info_gain p).
  destruct (known_strategy_cases p Hknown) as [-> | ->];
    destruct (info_gain p); reflexivity.
Qed.

(** C8: in a run without an input model, the constructor
    [HoeffdingTreeModel(type)] runs exactly once if the parameter checks
    pass (and not at all if they fail), with the type given by the pair
    (info_gain, numeric_split_strategy): Gini unless info_gain is set,
    the binned split for 'domingos' and the binary split for 'binary';
    with neither option passed the type is Gini with binary splits. *)
Theorem C8_model_type_selection (p : CLIParams) :
  input_model p = None ->
  let strategy := GetParam_string p "numeric_split_strategy" in
  let type := tree_type_for (info_gain p) strategy in
  constructed_types (trace (mlpackMain p)) =
    match outcome (check_parameters p) with
    | Done _ => [type]
    | Failed _ => []
    end /\
  (outcome (check_parameters p) = Done tt ->
   (strategy = "domingos"%string \/ strategy = "binary"%string) /\
   initial_model p strategy =
     (Done (Model_of_type type), [EvDefaultModel; EvNewModel type])) /\
  (info_gain p = false -> strategy = "domingos"%string ->
   type = GINI_HOEFFDING) /\
  (info_gain p = false -> strategy = "binary"%string ->
   type = GINI_BINARY) /\
  (info_gain p = true -> strategy = "domingos"%string ->
   type = INFO_HOEFFDING) /\
  (info_gain p = true -> strategy = "binary"%string ->
   type = INFO_BINARY) /\
  (numeric_split_strategy p = None -> info_gain p = false ->
   type = GINI_BINARY).
Proof.
  intros Hnone strategy type. repeat split.
  - unfold mlpackMain. rewrite trace_bind, constructed_types_app.
    rewrite (@quiet_constructed_types _ (check_parameters p))
      by quiet_driver.
    destruct (outcome (check_parameters p)) as [[] | e] eqn:Hchecks;
      [| reflexivity].
    destruct (checks_passed p Hchecks) as (_ & _ & Hknown).
    rewrite trace_bind, constructed_types_app.
    rewrite (initial_model_new p Hnone Hknown). cbn [outcome fst].
    match goal with
    | |- _ ++ _ ++ constructed_types (trace ?rest) = _ =>
        rewrite (@quiet_constructed_types _ rest) by quiet_driver
    end.
    reflexivity.
  - apply known_strategy_cases.
    destruct (checks_passed p H) as (_ & _ & Hknown). exact Hknown.
  - destruct (checks_passed p H) as (_ & _ & Hknown).
    apply initial_model_new; assumption.
  - intros Hi Hs. unfold type. rewrite Hi, Hs. reflexivity.
  - intros Hi Hs. unfold type. rewrite Hi, Hs. reflexivity.
  - intros Hi Hs. unfold type. rewrite Hi, Hs. reflexivity.
  - intros Hi Hs. unfold type. rewrite Hi, Hs. reflexivity.
  - intros Hs Hi. unfold type, strategy, GetParam_string. simpl.
    rewrite Hs, Hi. reflexivity.
Qed.

(** *** The life cycle of the model along a run *)

Lemma model_run_app s t1 t2 :
  model_run s (t1 ++ t2) =
  match model_run s t1 with
  | Some s' => model_run s' t2
  | None => None
  end.
Proof.
  revert s. induction t1 as [| e t1 IH]; intros s; simpl; [reflexivity |].
  destruct (model_step s e); [apply IH | reflexivity].
Qed.

Lemma model_run_unmoved s t :
  Forall (fun e => moves_model_state e = false) t -> model_run s t = Some s.
Proof.
  induction 1 as [| e t He _ IH]; simpl; [reflexivity |].
  destruct e; simpl in *; try discriminate; exact IH.
Qed.

Lemma model_run_without_classify s t :
  Forall (fun e => is_classify e = false) t ->
  exists s', model_run s t = Some s'.
Proof.
  intros H. revert s. induction H as [| e t He _ IH]; intros s; simpl.
  - eauto.
  - destruct e; simpl in *; try discriminate; apply IH.
Qed.

Lemma model_run_stays_initialized t :
  Forall (fun e => may_uninitialize e = false) t ->
  model_run Initialized t = Some Initialized.
Proof.
  induction 1 as [| e t He _ IH]; simpl; [reflexivity |].
  destruct e; simpl in *; try discriminate; try exact IH.
  apply negb_false_iff in He. subst. exact IH.
Qed.

Lemma tracks_ret {A} s (a : A) (Q : A -> ModelState -> Prop) :
  Q a s -> tracks s (ret a) Q.
Proof.
  intros H. exists s. split; [reflexivity |].
  intros a' Ha. injection Ha as <-. exact H.
Qed.

Lemma tracks_fail {A} s e (Q : A -> ModelState -> Prop) :
  tracks s (fail e) Q.
Proof. exists s. split; [reflexivity | discriminate]. Qed.

Lemma tracks_emit s s' e (Q : unit -> ModelState -> Prop) :
  model_step s e = Some s' -> Q tt s' -> tracks s (emit e) Q.
Proof.
  intros Hstep H. exists s'. split; [simpl; rewrite Hstep; reflexivity |].
  intros [] _. exact H.
Qed.

Lemma tracks_bind {A B} s (m : M A) (f : A -> M B) Q R :
  tracks s m Q ->
  (forall a s', Q a s' -> tracks s' (f a) R) ->
  tracks s (bind m f) R.
Proof.
  intros (s1 & Hrun & Hpost) Hf. unfold tracks.
  rewrite trace_bind, outcome_bind, model_run_app, Hrun.
  destruct (outcome m) as [a | e].
  - destruct (Hf a s1 (Hpost a eq_refl)) as (s2 & Hrun2 & Hpost2).
    exists s2. split; assumption.
  - exists s1. split; [reflexivity | discriminate].
Qed.

Lemma tracks_unmoved {A} s (m : M A) (Q : A -> ModelState -> Prop) :
  quiet moves_model_state m -> (forall a, Q a s) -> tracks s m Q.
Proof.
  intros Hq HQ. exists s. split; [apply model_run_unmoved, Hq |].
  intros a _. apply HQ.
Qed.

Lemma tracks_initialized {A} (m : M A) (Q : A -> ModelState -> Prop) :
  quiet may_uninitialize m -> (forall a, Q a Initialized) ->
  tracks Initialized m Q.
Proof.
  intros Hq HQ. exists Initialized.
  split; [apply model_run_stays_initialized, Hq |].
  intros a _. apply HQ.
Qed.

Lemma tracks_without_classify {A} s (m : M A) :
  quiet is_classify m -> tracks s m (fun _ _ => True).
Proof.
  intros Hq. destruct (model_run_without_classify s Hq) as [s' Hrun].
  exists s'. split; trivial.
Qed.

Lemma tracks_weaken {A} s (m : M A) (Q R : A -> ModelState -> Prop) :
  tracks s m Q -> (forall a s', Q a s' -> R a s') -> tracks s m R.
Proof.
  intros (s' & Hrun & Hpost) HQR. exists s'. split; [exact Hrun |].
  intros a Ha. apply HQR, Hpost, Ha.
Qed.

(** The parameter checks leave the life cycle where it is, and let the
    run go on only with a training set or an input model. *)
Lemma tracks_check_parameters s p :
  tracks s (check_parameters p)
    (fun _ s' => s' = s /\
                 passed (training p) || passed (input_model p) = true).
Proof.
  exists s. split.
  - apply model_run_unmoved. change (quiet moves_model_state
      (check_parameters p)). quiet_driver.
  - intros [] Hdone. split; [reflexivity |].
    apply (checks_passed p Hdone).
Qed.

(** An input model initializes the variable; a constructor does not. *)
Lemma tracks_initial_model s p strategy :
  tracks s (initial_model p strategy)
    (fun _ s' => input_model p <> None -> s' = Initialized).
Proof.
  unfold initial_model.
  apply tracks_bind with (Q := fun _ _ => True).
  { apply tracks_emit with (s' := Uninitialized); trivial. }
  intros _ s1 _. destruct (input_model p) as [loaded |].
  - apply tracks_bind with (Q := fun _ s' => s' = Initialized).
    + apply tracks_emit with (s' := Initialized); reflexivity.
    + intros _ s2 ->. apply tracks_ret. reflexivity.
  - apply tracks_weaken with (Q := fun _ _ => True);
      [| intros ? ? _ H; exfalso; apply H; reflexivity].
    apply tracks_without_classify. unfold new_model. quiet_driver.
Qed.

(** Training leaves an initialized model initialized, and initializes a
    new one by [BuildModel]. *)
Lemma tracks_train p m s :
  passed (training p) || passed (input_model p) = true ->
  (input_model p <> None -> s = Initialized) ->
  tracks s (train p m) (fun _ s' => s' = Initialized).
Proof.
  intros Hsource Hstate. unfold train.
  destruct (training p) as [file |] eqn:Htraining.
  2:{ apply tracks_ret. apply Hstate.
      destruct (input_model p); [discriminate | discriminate Hsource]. }
  clear Hsource.
  apply tracks_bind with (Q := fun _ s' => s' = s).
  { apply tracks_unmoved; [quiet_driver | reflexivity]. }
  intros [info X] s1 ->.
  apply tracks_bind with (Q := fun _ s' => s' = s).
  { apply tracks_unmoved; [quiet_driver | reflexivity]. }
  intros _ s1 ->.
  apply tracks_bind with (Q := fun _ s' => s' = Initialized);
    [| intros a s1 ->; apply tracks_ret; reflexivity].
  unfold training_passes.
  apply tracks_bind with (Q := fun _ s' => s' = s).
  { apply tracks_unmoved; [quiet_driver | reflexivity]. }
  intros _ s1 ->.
  change (HasParam p "input_model") with (passed (input_model p)).
  destruct (input_model p) as [loaded |] eqn:Hmodel; cbn [passed negb].
  - rewrite Hstate by discriminate.
    apply tracks_initialized; [quiet_driver | reflexivity].
  - clear Hstate.
    apply tracks_bind with (Q := fun _ s' => s' = Initialized).
    + unfold arma_max. destruct (GetParam_urow p "labels") as [| x rest].
      { rewrite bind_fail. apply tracks_fail. }
      rewrite bind_ret. unfold call_BuildModel.
      apply tracks_bind with (Q := fun _ s' => s' = Initialized);
        [| intros a s1 ->; apply tracks_ret; reflexivity].
      match goal with
      | |- context [BuildModel ?a ?b ?c ?d ?e ?f ?g ?h ?i ?j ?k ?l] =>
          destruct (BuildModel a b c d e f g h i j k l) as [built |]
      end.
      * apply tracks_bind with (Q := fun _ s' => s' = Initialized).
        { apply tracks_emit with (s' := Initialized); reflexivity. }
        intros _ s1 ->. apply tracks_ret. reflexivity.
      * apply tracks_bind with (Q := fun _ _ => True).
        { apply tracks_emit with (s' := Uninitialized); trivial. }
        intros. apply tracks_fail.
    + intros [built remaining] s1 ->.
      apply tracks_initialized; [quiet_driver | reflexivity].
Qed.

(** The life cycle accepts every run: no [Classify] call is made while
    the model variable holds an untrained model. *)
Lemma mlpackMain_classifies_initialized p :
  exists s, model_run Uninitialized (trace (mlpackMain p)) = Some s.
Proof.
  assert (H : tracks Uninitialized (mlpackMain p) (fun _ _ => True)).
  { unfold mlpackMain.
    eapply tracks_bind; [apply tracks_check_parameters |].
    intros _ s1 [-> Hsource].
    eapply tracks_bind; [apply tracks_initial_model |].
    intros m s1 Hstate.
    eapply tracks_bind; [apply (tracks_train p m Hsource Hstate) |].
    intros l s2 ->.
    apply tracks_initialized; [quiet_driver | trivial]. }
  destruct H as (s & Hrun & _). eauto.
Qed.

(** C6: every run keeps to the life cycle of the model, in which a
    [Classify] call on an untrained model is rejected: when a
    classification is made the model variable holds the input model or a
    model that [BuildModel] returned.  A run with neither a training set
    nor an input model ends in the fatal error of the first parameter
    check, before any model is constructed and with no classification
    made. *)
Theorem C6_no_classification_before_initialization (p : CLIParams) :
  (exists s, model_run Uninitialized (trace (mlpackMain p)) = Some s) /\
  (training p = None -> input_model p = None ->
   mlpackMain p = (Failed (Fatal ""), [])).
Proof.
  split; [apply mlpackMain_classifies_initialized |].
  intros Htraining Hmodel.
  unfold mlpackMain, check_parameters, RequireAtLeastOnePassed at 1,
    count_passed, HasParam.
  simpl. rewrite Htraining, Hmodel. reflexivity.
Qed.

(** *** The passes over the training set *)

Lemma completed_passes_app t1 t2 :
  completed_passes (t1 ++ t2) = completed_passes t1 ++ completed_passes t2.
Proof.
  induction t1 as [| e t1 IH]; simpl; [reflexivity |].
  destruct e; simpl; try exact IH;
    match goal with
    | |- context [if ?b then _ else _] => destruct b
    | |- context [match ?b with true => _ | false => _ end] => destruct b
    end; simpl; rewrite ?IH; reflexivity.
Qed.

Lemma completed_passes_quiet {A} (m : M A) :
  quiet is_training_event m -> completed_passes (trace m) = [].
Proof.
  unfold quiet. induction (trace m) as [| e t IH]; intros H; [reflexivity |].
  inversion H as [| e' t' He Ht]; subst.
  destruct e; simpl in *; try discriminate; apply IH, Ht.
Qed.

(** A sequence that returns: both parts returned, and the completed
    passes are those of the first part followed by those of the second. *)
Lemma completed_passes_bind {A B} (m : M A) (f : A -> M B) b :
  outcome (bind m f) = Done b ->
  exists a, outcome m = Done a /\ outcome (f a) = Done b /\
            completed_passes (trace (bind m f)) =
            completed_passes (trace m) ++ completed_passes (trace (f a)).
Proof.
  rewrite outcome_bind, trace_bind, completed_passes_app.
  destruct (outcome m) as [a | e]; [| discriminate].
  intros H. exists a. auto.
Qed.

(** A streaming loop that returns has completed one [Train] call per
    iteration. *)
Lemma streaming_loop_done X ls n m m' :
  outcome (for_loop n (call_Train X ls false) m) = Done m' ->
  completed_passes (trace (for_loop n (call_Train X ls false) m)) =
  repeat (ByTrain false) (Z.to_nat n).
Proof.
  unfold for_loop. rewrite <- Z_N_nat. revert m'.
  induction (Z.to_N n) as [| k IH] using N.peano_ind; intros m' H.
  - reflexivity.
  - rewrite N.iter_succ in *.
    apply completed_passes_bind in H as (m1 & H1 & H2 & ->).
    rewrite (IH m1 H1), N2Nat.inj_succ. unfold call_Train in *.
    destruct (Train m1 X ls false); [| discriminate].
    simpl. rewrite <- repeat_cons. reflexivity.
Qed.

Lemma training_passes_done p m X info ls conf maxS minS bins obb batch n m' :
  outcome (training_passes p m X info ls conf maxS minS bins obb batch n)
    = Done m' ->
  completed_passes
    (trace (training_passes p m X info ls conf maxS minS bins obb batch n)) =
  match batch, input_model p with
  | false, None =>
      ByBuildModel false :: repeat (ByTrain false) (Z.to_nat (size_t_pred n))
  | false, Some _ => repeat (ByTrain false) (Z.to_nat n)
  | true, None => [ByBuildModel true]
  | true, Some _ => [ByTrain true]
  end.
Proof.
  unfold training_passes. intros H.
  apply completed_passes_bind in H as ([] & _ & H & ->).
  apply completed_passes_bind in H as ([m1 n1] & H1 & H & ->).
  apply completed_passes_bind in H as (m2 & H2 & H3 & ->).
  rewrite (@completed_passes_quiet _ (emit (EvTimerStop "tree_training") ;; ret m2))
    by quiet_driver.
  change (HasParam p "input_model") with (passed (input_model p)) in *.
  destruct (input_model p) as [loaded |]; cbn [passed negb] in *.
  - injection H1 as <- <-. simpl.
    destruct batch.
    + unfold call_Train in *. destruct (Train m X ls true); [| discriminate].
      reflexivity.
    + rewrite (streaming_loop_done _ _ _ _ H2). apply app_nil_r.
  - apply completed_passes_bind in H1 as (biggest & Hmax & H1 & ->).
    apply completed_passes_bind in H1 as (built & Hbuilt & H1 & ->).
    injection H1 as <- <-.
    rewrite (@completed_passes_quiet _ (arma_max ls)) by quiet_driver.
    unfold call_BuildModel in *.
    match goal with
    | H : context [BuildModel ?a ?b ?c ?d ?e ?f ?g ?h ?i ?j ?k ?l] |- _ =>
        destruct (BuildModel a b c d e f g h i j k l); [| discriminate]
    end.
    simpl. destruct batch.
    + injection H2 as <-. reflexivity.
    + rewrite (streaming_loop_done _ _ _ _ H2), app_nil_r. reflexivity.
Qed.

Lemma train_done p m l :
  outcome (train p m) = Done l ->
  training p <> None ->
  completed_passes (trace (train p m)) =
  match effective_batchTraining p, input_model p with
  | false, None =>
      ByBuildModel false ::
      repeat (ByTrain false) (Z.to_nat (size_t_pred (requested_passes p)))
  | false, Some _ => repeat (ByTrain false) (Z.to_nat (requested_passes p))
  | true, None => [ByBuildModel true]
  | true, Some _ => [ByTrain true]
  end.
Proof.
  unfold train. destruct (training p) as [file |]; [| congruence].
  intros H _.
  apply completed_passes_bind in H as ([info X] & _ & H & ->).
  apply completed_passes_bind in H as ([] & _ & H & ->).
  apply completed_passes_bind in H as (m' & H & _ & ->).
  rewrite (@completed_passes_quiet _
             (GetParam_tuple "training" file DatasetInfo_default))
    by quiet_driver.
  match goal with
  | |- context [for_each ?xs ?body] =>
      rewrite (@completed_passes_quiet _ (for_each xs body)) by quiet_driver
  end.
  rewrite (training_passes_done _ _ _ _ _ _ _ _ _ _ _ _ H).
  simpl. apply app_nil_r.
Qed.

(** The completed passes of a run that returns are those of its training
    phase. *)
Lemma mlpackMain_done p l :
  outcome (mlpackMain p) = Done l ->
  exists m, outcome (train p m) = Done l /\
            completed_passes (trace (mlpackMain p)) =
            completed_passes (trace (train p m)).
Proof.
  unfold mlpackMain. intros H.
  apply completed_passes_bind in H as ([] & _ & H & ->).
  apply completed_passes_bind in H as (m & _ & H & ->).
  apply completed_passes_bind in H as (l' & Htrain & H & ->).
  rewrite (@completed_passes_quiet _ (check_parameters p)) by quiet_driver.
  match goal with
  | |- context [initial_model ?a ?b] =>
      rewrite (@completed_passes_quiet _ (initial_model a b))
        by quiet_driver
  end.
  match goal with
  | |- context [completed_passes (trace (training_error ?a ?b ;; ?k))] =>
      rewrite (@completed_passes_quiet _ (training_error a b ;; k))
        by quiet_driver
  end.
  assert (l' = l) as ->.
  { apply completed_passes_bind in H as (? & _ & H & _).
    apply completed_passes_bind in H as (? & _ & H & _).
    apply completed_passes_bind in H as (? & _ & H & _).
    apply completed_passes_bind in H as (? & _ & H & _).
    injection H as ->. reflexivity. }
  exists m. split; [exact Htrain |]. simpl. apply app_nil_r.
Qed.

(** C2: in a run with a training set that returns, with requested pass
    count n.  In streaming mode with n >= 1 the completed passes are
    [BuildModel] followed by n-1 streaming [Train] calls when no input
    model was given, and n streaming [Train] calls when one was: n
    passes either way.  In batch mode there is exactly one pass, in batch
    mode: [BuildModel] for a new model, a single [Train] for an input
    model. *)
Theorem C2_passes_over_the_training_set (p : CLIParams) (l : Locals)
    (n : Z) :
  outcome (mlpackMain p) = Done l ->
  training p <> None ->
  GetParam_int p "passes" = n -> is_int n ->
  (effective_batchTraining p = false -> 1 <= n ->
   completed_passes (trace (mlpackMain p)) =
     match input_model p with
     | None => ByBuildModel false :: repeat (ByTrain false) (Z.to_nat (n - 1))
     | Some _ => repeat (ByTrain false) (Z.to_nat n)
     end /\
   Z.of_nat (List.length (completed_passes (trace (mlpackMain p)))) = n) /\
  (effective_batchTraining p = true ->
   completed_passes (trace (mlpackMain p)) =
     match input_model p with
     | None => [ByBuildModel true]
     | Some _ => [ByTrain true]
     end).
Proof.
  intros Hdone Htraining Hn Hint.
  destruct (mlpackMain_done p Hdone) as (m & Htrain & ->).
  rewrite (train_done p m Htrain Htraining).
  split.
  - intros -> Hpos. unfold requested_passes. rewrite Hn.
    rewrite int_is_size_t by (trivial; lia).
    assert (Hpred : size_t_pred n = n - 1).
    { apply size_t_pred_pos. unfold is_int, size_t_modulus in *. lia. }
    rewrite Hpred.
    destruct (input_model p); split; trivial;
      cbn [List.length]; rewrite ?repeat_length; lia.
  - intros ->. destruct (input_model p); reflexivity.
Qed.

(** *** A pass count of zero *)

(** The training phase of a streaming run that builds a new model, when
    the data loads, the labels are not empty and [BuildModel] returns. *)
Lemma train_new_model_streaming p m file info X x rest built :
  training p = Some file ->
  input_model p = None ->
  effective_batchTraining p = false ->
  data_Load file DatasetInfo_default = Some (info, X) ->
  GetParam_urow p "labels" = x :: rest ->
  BuildModel m X info (x :: rest) (size_t_succ (fold_left Z.max rest x))
    false (GetParam_double p "confidence")
    (to_size_t (GetParam_int p "max_samples")) 100
    (to_size_t (GetParam_int p "min_samples"))
    (to_size_t (GetParam_int p "bins"))
    (to_size_t (GetParam_int p "observations_before_binning")) = Some built ->
  train p m =
  (emit (EvLoad "training" DatasetInfo_default) ;;
   for_each (seq 0 (n_rows X))
     (fun i => emit (EvInfoMappings (NumMappings info i) i)) ;;
   emit (EvTimerStart "tree_training") ;;
   emit (EvBuildModel (size_t_succ (fold_left Z.max rest x)) false
           (GetParam_double p "confidence")
           (to_size_t (GetParam_int p "max_samples")) 100
           (to_size_t (GetParam_int p "min_samples"))
           (to_size_t (GetParam_int p "bins"))
           (to_size_t (GetParam_int p "observations_before_binning"))
           true) ;;
   trained <- for_loop (size_t_pred (requested_passes p))
                (call_Train X (x :: rest) false) built ;;
   emit (EvTimerStop "tree_training") ;;
   ret {| model := trained; datasetInfo := info; trainingSet := X;
          labelsRow := x :: rest |}).
Proof.
  intros Htraining Hmodel Hstream Hload Hlabels Hbuilt.
  unfold train, GetParam_tuple.
  rewrite Htraining, Hstream, Hload, Hlabels.
  rewrite bind_assoc. apply bind_ext; intros [].
  rewrite bind_ret. apply bind_ext; intros [].
  unfold training_passes.
  change (HasParam p "input_model") with (passed (input_model p)).
  rewrite Hmodel. cbn [passed negb].
  rewrite bind_assoc. apply bind_ext; intros [].
  unfold arma_max, call_BuildModel. rewrite bind_ret, Hbuilt.
  rewrite !bind_assoc. apply bind_ext; intros [].
  rewrite !bind_ret, bind_assoc. apply bind_ext; intros trained.
  rewrite bind_assoc. apply bind_ext; intros [].
  rewrite bind_ret. reflexivity.
Qed.

Lemma zero_passes p :
  passes p = Some 0 ->
  requested_passes p = 0 /\ size_t_pred (requested_passes p) = SIZE_MAX.
Proof.
  intros Hp. unfold requested_passes, GetParam_int. simpl. rewrite Hp.
  split; reflexivity.
Qed.

(** C10: in a run with a training set, no input model, no [batch_mode]
    and a pass count of 0, once [BuildModel] has returned the decrement of
    line 200 wraps the unsigned counter from 0 to 2^64 - 1, and the
    streaming loop of lines 213-214 runs with that bound: a training
    phase that returns has completed 2^64 - 1 [Train] calls after
    [BuildModel], not none. *)
Theorem C10_zero_passes_wrap_around (p : CLIParams) (m : HoeffdingTreeModel)
    (file : MatrixFile) (info : DatasetInfo) (X : mat) (x : Z)
    (rest : list Z) (built : HoeffdingTreeModel) :
  training p = Some file ->
  input_model p = None ->
  passes p = Some 0 ->
  batch_mode p = false ->
  data_Load file DatasetInfo_default = Some (info, X) ->
  GetParam_urow p "labels" = x :: rest ->
  BuildModel m X info (x :: rest) (size_t_succ (fold_left Z.max rest x))
    false (GetParam_double p "confidence")
    (to_size_t (GetParam_int p "max_samples")) 100
    (to_size_t (GetParam_int p "min_samples"))
    (to_size_t (GetParam_int p "bins"))
    (to_size_t (GetParam_int p "observations_before_binning")) = Some built ->
  requested_passes p = 0 /\
  size_t_pred (requested_passes p) = SIZE_MAX /\
  SIZE_MAX = 2 ^ 64 - 1 /\
  train p m =
    (emit (EvLoad "training" DatasetInfo_default) ;;
     for_each (seq 0 (n_rows X))
       (fun i => emit (EvInfoMappings (NumMappings info i) i)) ;;
     emit (EvTimerStart "tree_training") ;;
     emit (EvBuildModel (size_t_succ (fold_left Z.max rest x)) false
             (GetParam_double p "confidence")
             (to_size_t (GetParam_int p "max_samples")) 100
             (to_size_t (GetParam_int p "min_samples"))
             (to_size_t (GetParam_int p "bins"))
             (to_size_t (GetParam_int p "observations_before_binning"))
             true) ;;
     trained <- for_loop SIZE_MAX (call_Train X (x :: rest) false) built ;;
     emit (EvTimerStop "tree_training") ;;
     ret {| model := trained; datasetInfo := info; trainingSet := X;
            labelsRow := x :: rest |}) /\
  (forall l, outcome (train p m) = Done l ->
     completed_passes (trace (train p m)) =
     ByBuildModel false :: repeat (ByTrain false) (Z.to_nat SIZE_MAX)).
Proof.
  intros Htraining Hmodel Hp Hbatch Hload Hlabels Hbuilt.
  destruct (zero_passes p Hp) as [Hzero Hpred].
  assert (Hstream : effective_batchTraining p = false).
  { unfold effective_batchTraining. rewrite Hzero.
    change (HasParam p "batch_mode") with (batch_mode p).
    rewrite Hbatch. reflexivity. }
  split; [exact Hzero |]. split; [exact Hpred |].
  split; [reflexivity |]. split.
  - rewrite <- Hpred.
    apply train_new_model_streaming with (file := file); assumption.
  - intros l Hdone.
    rewrite (train_done p m Hdone) by congruence.
    rewrite Hstream, Hmodel, Hpred. reflexivity.
Qed.

(** *** The accuracy figures *)

Lemma count_correct_from labels predictions k : forall a c,
  (a + k <= List.length labels)%nat ->
  (List.length labels <= List.length predictions)%nat ->
  n_elem labels < size_t_modulus ->
  0 <= c <= Z.of_nat a ->
  fold_left
    (fun acc i =>
       correct <- acc ;;
       match nth_error labels i, nth_error predictions i with
       | Some l, Some q =>
           ret (if l =? q then size_t_succ correct else correct)
       | _, _ => fail OutOfBounds
       end)
    (seq a k) (ret c) =
  ret (c + Z.of_nat
             (List.length
                (filter (fun i => nth i labels 0 =? nth i predictions 0)
                        (seq a k)))).
Proof.
  induction k as [| k IH]; intros a c Hrange Hlen Hsize Hc;
    cbn [seq fold_left filter].
  - cbn [List.length]. rewrite Z.add_0_r. reflexivity.
  - rewrite bind_ret.
    rewrite (nth_error_nth' labels 0) by lia.
    rewrite (nth_error_nth' predictions 0) by lia.
    assert (Hsucc : size_t_succ c = c + 1).
    { unfold size_t_succ. apply Z.mod_small. unfold n_elem in Hsize. lia. }
    destruct (nth a labels 0 =? nth a predictions 0).
    + rewrite Hsucc, IH by lia. cbn [List.length]. f_equal. lia.
    + rewrite IH by lia. reflexivity.
Qed.

(** The counting loop refines the count of matching positions. *)
Lemma count_correct_matching labels predictions :
  (List.length labels <= List.length predictions)%nat ->
  n_elem labels < size_t_modulus ->
  count_correct labels predictions =
  ret (matching_positions labels predictions).
Proof.
  intros Hlen Hsize. unfold count_correct, matching_positions.
  rewrite count_correct_from by (trivial; lia). reflexivity.
Qed.

(** With more labels than predictions the loop reads past the end of the
    predictions. *)
Lemma count_correct_out_of_range labels predictions :
  (List.length predictions < List.length labels)%nat ->
  count_correct labels predictions = fail OutOfBounds.
Proof.
  intros Hshort. unfold count_correct.
  set (step := fun (acc : M Z) (i : nat) =>
         correct <- acc ;;
         match nth_error labels i, nth_error predictions i with
         | Some l, Some q =>
             ret (if l =? q then size_t_succ correct else correct)
         | _, _ => fail OutOfBounds
         end).
  assert (Hfailed : forall xs, fold_left step xs (fail OutOfBounds)
                               = fail OutOfBounds).
  { induction xs as [| i rest IH]; [reflexivity | exact IH]. }
  assert (Hbefore : forall k a c,
            (a + k <= List.length predictions)%nat ->
            exists c', fold_left step (seq a k) (ret c) = ret c').
  { induction k as [| k IH]; intros a c Ha; cbn [seq fold_left];
      [eauto |].
    unfold step at 2. rewrite bind_ret.
    rewrite (nth_error_nth' labels 0) by lia.
    rewrite (nth_error_nth' predictions 0) by lia.
    apply IH. lia. }
  replace (List.length labels)
    with (List.length predictions +
          S (List.length labels - S (List.length predictions)))%nat by lia.
  rewrite seq_app, fold_left_app.
  destruct (Hbefore (List.length predictions) 0%nat 0) as [c Hc];
    [lia |].
  rewrite Hc. cbn [seq fold_left Nat.add].
  unfold step at 2. rewrite bind_ret.
  rewrite (nth_error_nth' labels 0) by lia.
  rewrite (proj2 (nth_error_None predictions (List.length predictions)))
    by lia.
  apply Hfailed.
Qed.


(** *** The dataset info the test set is loaded under *)

Lemma load_infos_app t1 t2 :
  load_infos (t1 ++ t2) = load_infos t1 ++ load_infos t2.
Proof.
  induction t1 as [| e t1 IH]; simpl; [reflexivity |].
  destruct e; simpl; rewrite IH; reflexivity.
Qed.

Lemma load_infos_quiet {A} (m : M A) :
  quiet is_load m -> load_infos (trace m) = [].
Proof.
  unfold quiet. induction (trace m) as [| e t IH]; intros H; [reflexivity |].
  inversion H as [| e' t' He Ht]; subst.
  destruct e; simpl in *; try discriminate; apply IH, Ht.
Qed.

(** Line 245 hands the test parameter the local [datasetInfo]. *)
Lemma testing_load_info p l :
  load_infos (trace (testing p l)) =
  match test p with
  | Some _ => [("test"%string, datasetInfo l)]
  | None => []
  end.
Proof.
  unfold testing. destruct (test p) as [file |]; [| reflexivity].
  unfold GetParam_tuple.
  rewrite bind_assoc, bind_emit. cbn [trace snd load_infos]. f_equal.
  apply load_infos_quiet. quiet_driver.
Qed.

(** The local [datasetInfo] after the training phase: what the training
    file was loaded to, or the default-constructed one of line 143 when
    there was no training. *)
Lemma train_datasetInfo p m l :
  outcome (train p m) = Done l ->
  match training p with
  | Some file =>
      exists X, data_Load file DatasetInfo_default = Some (datasetInfo l, X)
  | None => datasetInfo l = DatasetInfo_default
  end.
Proof.
  unfold train. destruct (training p) as [file |].
  - unfold GetParam_tuple. rewrite bind_assoc, bind_emit.
    cbn [outcome fst].
    destruct (data_Load file DatasetInfo_default) as [[info X] |];
      [| discriminate].
    rewrite bind_ret, !outcome_bind.
    destruct (outcome (for_each _ _)); [| discriminate].
    destruct (outcome (training_passes _ _ _ _ _ _ _ _ _ _ _ _));
      [| discriminate].
    intros H. injection H as <-. exists X. reflexivity.
  - intros H. injection H as <-. reflexivity.
Qed.

(** Without a training set the test set is the only matrix loaded, and it
    is loaded under a default-constructed [DatasetInfo], whatever the
    input model was trained on. *)
Lemma test_only_load_info p :
  training p = None ->
  load_infos (trace (mlpackMain p)) = [] \/
  load_infos (trace (mlpackMain p)) = [("test"%string, DatasetInfo_default)].
Proof.
  intros Htraining. unfold mlpackMain, train. rewrite Htraining.
  rewrite trace_bind, load_infos_app.
  rewrite (@load_infos_quiet _ (check_parameters p)) by quiet_driver.
  destruct (outcome (check_parameters p)); [| left; reflexivity].
  rewrite trace_bind, load_infos_app.
  rewrite (@load_infos_quiet _ (initial_model _ _)) by quiet_driver.
  destruct (outcome (initial_model _ _)) as [m |]; [| left; reflexivity].
  rewrite bind_ret.
  rewrite trace_bind, load_infos_app.
  rewrite (@load_infos_quiet _ (training_error _ _)) by quiet_driver.
  destruct (outcome (training_error _ _)); [| left; reflexivity].
  rewrite bind_emit. cbn [trace snd load_infos app].
  rewrite trace_bind, load_infos_app, testing_load_info.
  cbn [datasetInfo].
  match goal with
  | |- context [match outcome ?t with Done a => trace (@?k a) | Failed _ => [] end] =>
      assert (Hk : load_infos
                (match outcome t with
                 | Done a => trace (k a) | Failed _ => [] end) = [])
  end.
  { destruct (outcome (testing _ _)); [| reflexivity].
    apply load_infos_quiet. quiet_driver. }
  rewrite Hk, app_nil_r.
  destruct (test p); [right | left]; reflexivity.
Qed.

(** *** The configuration values *)

(** With an input model the configuration never reaches the model. *)
Lemma training_passes_ignores_configuration p m X info ls batch n
    c maxS minS c1 maxS1 minS1 c2 maxS2 minS2 bins obb :
  input_model p <> None ->
  training_passes (with_configuration c maxS minS p) m X info ls
    c1 maxS1 minS1 bins obb batch n =
  training_passes p m X info ls c2 maxS2 minS2 bins obb batch n.
Proof.
  intros Hmodel. unfold training_passes.
  change (HasParam (with_configuration c maxS minS p) "input_model")
    with (passed (input_model p)).
  change (HasParam p "input_model") with (passed (input_model p)).
  destruct (input_model p); [reflexivity | congruence].
Qed.

Lemma train_ignores_configuration p m c maxS minS :
  input_model p <> None \/ training p = None ->
  train (with_configuration c maxS minS p) m = train p m.
Proof.
  intros H. unfold train.
  change (training (with_configuration c maxS minS p)) with (training p).
  destruct (training p) as [file |] eqn:Htraining; [| reflexivity].
  destruct H as [Hmodel | H]; [| discriminate].
  apply bind_ext. intros [info X]. apply bind_ext. intros [].
  f_equal. apply training_passes_ignores_configuration, Hmodel.
Qed.

Lemma check_parameters_ignores_configuration p c maxS minS :
  check_parameters (with_configuration c maxS minS p) = check_parameters p.
Proof.
  unfold check_parameters, RequireAtLeastOnePassed, RequireOnlyOnePassed,
    ReportIgnoredParam, RequireParamInSet, count_passed, GetParam_string,
    HasParam.
  simpl. reflexivity.
Qed.

Lemma mlpackMain_ignores_configuration p c maxS minS :
  input_model p <> None \/ training p = None ->
  mlpackMain (with_configuration c maxS minS p) = mlpackMain p.
Proof.
  intros H. unfold mlpackMain.
  rewrite (check_parameters_ignores_configuration p c maxS minS).
  apply bind_ext. intros [].
  change (initial_model (with_configuration c maxS minS p)
            (GetParam_string (with_configuration c maxS minS p)
               "numeric_split_strategy"))
    with (initial_model p (GetParam_string p "numeric_split_strategy")).
  apply bind_ext. intros m.
  rewrite (train_ignores_configuration p m c maxS minS H).
  reflexivity.
Qed.

Lemma starts_after_quiet p {A B} (m : M A) (f : A -> M B) :
  quiet is_training_event m ->
  (forall a, starts_with_BuildModel p (f a)) ->
  starts_with_BuildModel p (bind m f).
Proof.
  intros Hq Hf. unfold starts_with_BuildModel in *.
  rewrite trace_bind, training_events_app, training_events_quiet by exact Hq.
  rewrite outcome_bind. cbn [app].
  destruct (outcome m) as [a | e]; [apply Hf | left; reflexivity].
Qed.

Lemma starts_before_quiet p {A B} (m : M A) (f : A -> M B) :
  starts_with_BuildModel p m ->
  (forall a, quiet is_training_event (f a)) ->
  starts_with_BuildModel p (bind m f).
Proof.
  intros Hm Hf. unfold starts_with_BuildModel in *.
  rewrite trace_bind, training_events_app, outcome_bind.
  assert (Htail : training_events
            match outcome m with
            | Done a => trace (f a)
            | Failed _ => []
            end = []).
  { destruct (outcome m) as [a | e]; [| reflexivity].
    apply training_events_quiet, Hf. }
  rewrite Htail, app_nil_r.
  destruct Hm as [Hm | (k & returned & rest & Hm & Hthrown)];
    [left; exact Hm | right].
  exists k, returned, rest. split; [exact Hm |].
  intros Hr. destruct (Hthrown Hr) as [-> Hout].
  rewrite Hout. split; reflexivity.
Qed.

Lemma train_starts_with_BuildModel p m :
  input_model p = None -> starts_with_BuildModel p (train p m).
Proof.
  intros Hmodel. unfold train.
  destruct (training p) as [file |]; [| left; reflexivity].
  apply starts_after_quiet; [quiet_driver |]. intros [info X].
  apply starts_after_quiet; [quiet_driver |]. intros [].
  unfold training_passes.
  change (HasParam p "input_model") with (passed (input_model p)).
  rewrite Hmodel. cbn [passed negb].
  rewrite bind_assoc.
  apply starts_after_quiet; [quiet_driver |]. intros [].
  rewrite !bind_assoc.
  apply starts_after_quiet; [quiet_driver |]. intros biggest.
  unfold call_BuildModel.
  match goal with
  | |- context [BuildModel ?a ?b ?c ?d ?e ?f ?g ?h ?i ?j ?k ?l] =>
      destruct (BuildModel a b c d e f g h i j k l) as [built |]
  end.
  - rewrite !bind_assoc, bind_emit. right.
    eexists _, true, _. cbn [trace snd training_events filter
                              is_training_event].
    split; [reflexivity | discriminate].
  - rewrite !bind_assoc, bind_emit, !bind_fail. right.
    eexists _, false, []. split; [reflexivity |].
    intros _. split; reflexivity.
Qed.

Lemma mlpackMain_starts_with_BuildModel p :
  input_model p = None -> starts_with_BuildModel p (mlpackMain p).
Proof.
  intros Hmodel. unfold mlpackMain.
  apply starts_after_quiet; [quiet_driver |]. intros [].
  apply starts_after_quiet; [quiet_driver |]. intros m.
  apply starts_before_quiet;
    [apply train_starts_with_BuildModel, Hmodel | intros l; quiet_driver].
Qed.

(** C3, as the driver has it: the driver does not check the confidence or
    the sample bounds.  Its parameter checks are the same whatever their
    values.  In a run with an input model, or without a training set,
    they are not used at all: the run is the same whatever their values.
    In a run that builds a new model they are handed unchanged (the
    counts cast to size_t) to [BuildModel], the first pass of the run; if
    that call throws, no other pass is taken and the run ends with its
    exception. *)
Theorem C3_configuration_only_reaches_BuildModel (p : CLIParams)
    (c : option double) (maxS minS : option Z) :
  check_parameters (with_configuration c maxS minS p) = check_parameters p /\
  (input_model p <> None \/ training p = None ->
   mlpackMain (with_configuration c maxS minS p) = mlpackMain p) /\
  (input_model p = None -> starts_with_BuildModel p (mlpackMain p)).
Proof.
  split; [apply check_parameters_ignores_configuration |].
  split; [apply mlpackMain_ignores_configuration |].
  apply mlpackMain_starts_with_BuildModel.
Qed.

(** *** Classification comes after training *)

(** Every run is a phase without classification followed by a phase
    without training: the two [Classify] calls of the driver, on the
    training set and on the test set, are made on the same trained model
    with no pass in between. *)
Lemma training_precedes_classification p :
  exists t1 t2,
    trace (mlpackMain p) = t1 ++ t2 /\
    Forall (fun e => is_classify e = false) t1 /\
    Forall (fun e => is_training_event e = false) t2.
Proof.
  unfold mlpackMain.
  assert (Hchecks : quiet is_classify (check_parameters p))
    by quiet_driver.
  rewrite trace_bind.
  destruct (outcome (check_parameters p)) as [[] | e].
  2:{ exists (trace (check_parameters p)), [].
      split; [reflexivity |]. split; [exact Hchecks | constructor]. }
  set (strategy := GetParam_string p "numeric_split_strategy").
  assert (Hinit : quiet is_classify (initial_model p strategy))
    by quiet_driver.
  rewrite trace_bind.
  destruct (outcome (initial_model p strategy)) as [m | e].
  2:{ exists (trace (check_parameters p) ++
              trace (initial_model p strategy)), [].
      rewrite !app_nil_r. split; [reflexivity |].
      split; [apply Forall_app; split; assumption | constructor]. }
  assert (Htrain : quiet is_classify (train p m)) by quiet_driver.
  rewrite trace_bind.
  assert (Hprefix : Forall (fun e => is_classify e = false)
            (trace (check_parameters p) ++
             trace (initial_model p strategy) ++ trace (train p m))).
  { apply Forall_app. split; [exact Hchecks |].
    apply Forall_app. split; [exact Hinit | exact Htrain]. }
  destruct (outcome (train p m)) as [l | e].
  - match goal with
    | |- exists t1 t2, _ ++ _ ++ _ ++ trace ?rest = _ /\ _ =>
        exists (trace (check_parameters p) ++
                trace (initial_model p strategy) ++ trace (train p m)),
               (trace rest);
        assert (Hrest : quiet is_training_event rest) by quiet_driver
    end.
    split; [| split; [exact Hprefix | exact Hrest]].
    rewrite <- !app_assoc. reflexivity.
  - exists (trace (check_parameters p) ++
            trace (initial_model p strategy) ++ trace (train p m)), [].
    split; [| split; [exact Hprefix | constructor]].
    rewrite !app_nil_r. reflexivity.
Qed.

End DriverFacts.

(* ================================================================== *)
(** ** The properties on concrete command lines *)

Lemma C1_witness :
  effective_batchTraining run_three_passes = false /\
  Forall (fun e => is_batch_pass e = false)
         (trace (mlpackMain run_three_passes)).
Proof.
  assert (Hint : is_int 3) by (unfold is_int; lia).
  assert (Hmany : 1 < 3) by lia.
  destruct (C1_many_passes_force_streaming run_three_passes
              (file := four_points_file) (n := 3)
              eq_refl eq_refl Hint Hmany) as (Hflag & Hpasses & _).
  split; assumption.
Defined.

Lemma C2_witness :
  completed_passes (trace (mlpackMain run_three_passes)) =
  [ByBuildModel false; ByTrain false; ByTrain false].
Proof.
  assert (Hint : is_int 3) by (unfold is_int; lia).
  assert (Htraining : training run_three_passes <> None) by discriminate.
  destruct (C2_passes_over_the_training_set run_three_passes
              (l := locals_three_passes) (n := 3)
              eq_refl Htraining eq_refl Hint) as [Hstreaming _].
  assert (Hpos : 1 <= 3) by lia.
  destruct (Hstreaming eq_refl Hpos) as [Hpasses _].
  exact Hpasses.
Defined.

(** C3, eager rejection, does not hold: with an input model, a confidence
    of 2 or a minimum of 20 samples above a maximum of 10 does not stop
    the run; it returns with its passes taken, although the [BuildModel]
    of these collaborators rejects either configuration. *)
Lemma C3_counterexample :
  (invalid_configuration
     (GetParam_double run_confidence_2 "confidence")
     (to_size_t (GetParam_int run_confidence_2 "max_samples"))
     (to_size_t (GetParam_int run_confidence_2 "min_samples")) = true /\
   (exists l, outcome (mlpackMain run_confidence_2) = Done l) /\
   completed_passes (trace (mlpackMain run_confidence_2)) =
     [ByTrain false; ByTrain false]) /\
  (invalid_configuration
     (GetParam_double run_min_above_max "confidence")
     (to_size_t (GetParam_int run_min_above_max "max_samples"))
     (to_size_t (GetParam_int run_min_above_max "min_samples")) = true /\
   (exists l, outcome (mlpackMain run_min_above_max) = Done l) /\
   completed_passes (trace (mlpackMain run_min_above_max)) =
     [ByTrain false]).
Proof.
  split; (split; [reflexivity |]); (split; [| reflexivity]);
    eexists; reflexivity.
Qed.

Lemma C3_witness :
  mlpackMain run_confidence_2 =
    mlpackMain (run_with (Some saved_model) None None None None false false
                         (Some 2)) /\
  starts_with_BuildModel run_three_passes (mlpackMain run_three_passes).
Proof.
  split.
  - apply (C3_configuration_only_reaches_BuildModel
             (run_with (Some saved_model) None None None None false false
                       (Some 2))
             (Some double_2) None None).
    left. discriminate.
  - apply (C3_configuration_only_reaches_BuildModel run_three_passes
             None None None).
    reflexivity.
Defined.

(** C4: the run [--input_model saved --test data --predictions out],
    where the saved model was trained under a schema with one
    categorical dimension of arity 2.  The run completes, and the only
    matrix it loads, the test set, is loaded under the
    default-constructed [DatasetInfo] (no dimensions), not under the
    schema of the model. *)
Theorem C4_test_only_run_ignores_training_schema :
  input_model run_test_only = Some saved_model /\
  training run_test_only = None /\
  rec_schema saved_model = [categorical 2] /\
  (exists l, outcome (mlpackMain run_test_only) = Done l) /\
  load_infos (trace (mlpackMain run_test_only)) =
    [("test"%string, DatasetInfo_default)] /\
  DatasetInfo_default <> rec_schema saved_model.
Proof.
  split; [reflexivity |]. split; [reflexivity |].
  split; [reflexivity |]. split; [| split].
  - eexists. vm_compute. reflexivity.
  - vm_compute. reflexivity.
  - discriminate.
Qed.

Lemma C5_witness :
  (exists message,
     outcome (mlpackMain run_strategy_foo) = Failed (Fatal message)) /\
  trace (mlpackMain run_strategy_foo) =
    trace (check_parameters run_strategy_foo) /\
  Forall (fun e => is_warning e = true /\ is_model_event e = false)
         (trace (mlpackMain run_strategy_foo)).
Proof.
  apply (C5_unknown_strategy_is_fatal run_strategy_foo (s := "foo"));
    [reflexivity | discriminate | discriminate].
Defined.

Lemma C6_witness :
  mlpackMain run_without_model = (Failed (Fatal ""), []).
Proof.
  apply (C6_no_classification_before_initialization run_without_model);
    reflexivity.
Defined.



Lemma C8_witness :
  constructed_types (trace (mlpackMain run_info_domingos)) =
  [INFO_HOEFFDING].
Proof.
  exact (proj1 (C8_model_type_selection run_info_domingos eq_refl)).
Defined.

Lemma C10_witness :
  requested_passes run_zero_passes = 0 /\
  size_t_pred (requested_passes run_zero_passes) = SIZE_MAX /\
  SIZE_MAX = 2 ^ 64 - 1.
Proof.
  destruct (C10_zero_passes_wrap_around run_zero_passes
              (Model_of_type GINI_BINARY)
              (file := four_points_file) (info := [categorical 2])
              (X := four_points) (x := 0) (rest := [1; 0; 1])
              (built := {| rec_type := Some GINI_BINARY;
                           rec_schema := [categorical 2];
                           rec_passes := [false] |})
              eq_refl eq_refl eq_refl eq_refl eq_refl eq_refl eq_refl)
    as (Hzero & Hwrap & Hmax & _).
  repeat split; assumption.
Defined.

(* ================================================================== *)
(** * Further properties of the driver *)

Section MoreDriverFacts.

Context {model_ops : HoeffdingTreeModelOps} {loader : MatrixLoader}.

(** A sequence that returns: both parts returned, and its trace is the
    trace of the first part followed by that of the second. *)
Lemma bind_done_inv {A B} (m : M A) (f : A -> M B) b :
  outcome (bind m f) = Done b ->
  exists a, outcome m = Done a /\ outcome (f a) = Done b /\
            trace (bind m f) = trace m ++ trace (f a).
Proof.
  rewrite outcome_bind, trace_bind.
  destruct (outcome m) as [a | e]; [| discriminate].
  intros H. exists a. auto.
Qed.

(** *** What the parameter checks accept *)

(** X1: the parameter checks let a run go on exactly when a training set
    or an input model was passed, labels were passed if a training set
    was, and the strategy name is known; any other run ends in a fatal
    error with nothing but warnings in its trace.  Whether they accept
    the run or not, the checks themselves have only printed warnings. *)
Theorem parameter_checks_accept_iff (p : CLIParams) :
  (outcome (check_parameters p) = Done tt <->
   (passed (training p) = true \/ passed (input_model p) = true) /\
   (passed (training p) = true -> passed (labels p) = true) /\
   known_strategy p = true) /\
  Forall (fun e => is_warning e = true) (trace (check_parameters p)) /\
  (outcome (check_parameters p) <> Done tt ->
   exists message,
     outcome (mlpackMain p) = Failed (Fatal message) /\
     Forall (fun e => is_warning e = true) (trace (mlpackMain p))).
Proof.
  pose proof (check_parameters_outcome p) as Hout.
  assert (Hwarnings :
            Forall (fun e => is_warning e = true)
                   (trace (check_parameters p))).
  { pose proof (check_parameters_warns p) as Hw. unfold quiet in Hw.
    eapply Forall_impl; [| exact Hw].
    intros e He. apply negb_false_iff, He. }
  split; [split | split; [exact Hwarnings |]].
  - intros Hdone. destruct (checks_passed p Hdone) as (H1 & H2 & H3).
    apply orb_true_iff in H1. auto.
  - intros (H1 & H2 & H3). rewrite Hout, H3.
    destruct (passed (training p)), (passed (input_model p)),
      (passed (labels p)); simpl; try reflexivity;
      try (destruct H1; discriminate); discriminate (H2 eq_refl).
  - intros Hfail.
    assert (Hfatal : exists message,
               outcome (check_parameters p) = Failed (Fatal message)).
    { rewrite Hout in *. destruct (negb _); [eauto |].
      destruct (_ && _); [eauto |].
      destruct (known_strategy p); [congruence | eauto]. }
    destruct Hfatal as [message Hfatal]. exists message.
    rewrite (mlpackMain_checks_failed p Hfatal). split; [reflexivity |].
    exact Hwarnings.
Qed.

(** *** A run without a test set *)

(** X2: without a test set the test phase does nothing: no test set is
    loaded, no predictions or probabilities are assigned even when they
    were asked for, and no test accuracy is logged. *)
Theorem no_test_set_no_test_output (p : CLIParams) :
  test p = None ->
  Forall (fun e => is_test_event e = false) (trace (mlpackMain p)).
Proof.
  intros Htest. change (quiet is_test_event (mlpackMain p)).
  unfold_driver.
  repeat first [apply quiet_count_correct | quiet_step];
    try reflexivity; congruence.
Qed.

(** *** The output model *)

Lemma ends_by_saving_after_quiet {A B} (m : M A) (f : A -> M B) :
  quiet is_output_model m ->
  (forall a, ends_by_saving (f a)) ->
  ends_by_saving (bind m f).
Proof.
  intros Hq Hf. split.
  - intros e He. unfold quiet. rewrite trace_bind.
    rewrite outcome_bind in He. apply Forall_app. split; [exact Hq |].
    destruct (outcome m) as [a | e']; [| constructor].
    apply (proj1 (Hf a) e He).
  - intros b Hb. apply bind_done_inv in Hb as (a & _ & Hfa & ->).
    destruct (proj2 (Hf a) b Hfa) as (t & -> & Ht).
    exists (trace m ++ t). split; [apply app_assoc |].
    apply Forall_app. split; assumption.
Qed.

Lemma mlpackMain_ends_by_saving p :
  output_model p = true -> ends_by_saving (mlpackMain p).
Proof.
  intros Hout. unfold mlpackMain.
  change (HasParam p "output_model") with (output_model p). rewrite Hout.
  apply ends_by_saving_after_quiet; [quiet_driver |]. intros [].
  apply ends_by_saving_after_quiet; [quiet_driver |]. intros m.
  apply ends_by_saving_after_quiet; [quiet_driver |]. intros l.
  apply ends_by_saving_after_quiet; [quiet_driver |]. intros [].
  apply ends_by_saving_after_quiet; [quiet_driver |]. intros [].
  apply ends_by_saving_after_quiet; [quiet_driver |]. intros [].
  split.
  - intros e He. discriminate.
  - intros l' _. exists []. split; [reflexivity | constructor].
Qed.

(** X3: the output model is assigned only as the last action of a run
    that returns, and only when it was asked for: a run that fails, at
    whatever point, has not assigned it. *)
Theorem output_model_assigned_last (p : CLIParams) :
  (forall f, outcome (mlpackMain p) = Failed f ->
     Forall (fun e => is_output_model e = false) (trace (mlpackMain p))) /\
  (output_model p = false ->
     Forall (fun e => is_output_model e = false) (trace (mlpackMain p))) /\
  (forall l, outcome (mlpackMain p) = Done l -> output_model p = true ->
     exists t, trace (mlpackMain p) = t ++ [EvSetOutputModel] /\
               Forall (fun e => is_output_model e = false) t).
Proof.
  assert (Hnot : output_model p = false ->
                 quiet is_output_model (mlpackMain p)).
  { intros Hout. unfold mlpackMain.
    change (HasParam p "output_model") with (output_model p).
    rewrite Hout. cbn [when]. quiet_driver. }
  split; [| split].
  - intros f Hf. destruct (output_model p) eqn:Hout.
    + apply (proj1 (mlpackMain_ends_by_saving p Hout) f Hf).
    + apply Hnot. reflexivity.
  - exact Hnot.
  - intros l Hl Hout. apply (proj2 (mlpackMain_ends_by_saving p Hout) l Hl).
Qed.

(** *** The dataset info of the test set, after training *)

Lemma train_load_info p m file :
  training p = Some file ->
  load_infos (trace (train p m)) = [("training"%string, DatasetInfo_default)].
Proof.
  intros Htraining. unfold train, GetParam_tuple. rewrite Htraining.
  rewrite bind_assoc, bind_emit. cbn [trace snd load_infos]. f_equal.
  apply load_infos_quiet. quiet_driver.
Qed.

(** X4: in a run with a training set and a test set that returns, two
    matrices are loaded: the training set under a default-constructed
    [DatasetInfo], and then the test set under the [DatasetInfo] that
    loading the training set produced. *)
Theorem test_set_loaded_under_training_info (p : CLIParams)
    (file testFile : MatrixFile) (l : Locals) :
  training p = Some file ->
  test p = Some testFile ->
  outcome (mlpackMain p) = Done l ->
  (exists X, data_Load file DatasetInfo_default = Some (datasetInfo l, X)) /\
  load_infos (trace (mlpackMain p)) =
    [("training"%string, DatasetInfo_default);
     ("test"%string, datasetInfo l)].
Proof.
  intros Htraining Htest Hdone. unfold mlpackMain in *.
  apply bind_done_inv in Hdone as ([] & _ & Hdone & ->).
  apply bind_done_inv in Hdone as (m & _ & Hdone & ->).
  apply bind_done_inv in Hdone as (l' & Htrain & Hdone & ->).
  apply bind_done_inv in Hdone as ([] & _ & Hdone & ->).
  apply bind_done_inv in Hdone as ([] & _ & Hdone & ->).
  apply bind_done_inv in Hdone as ([] & _ & Hdone & ->).
  apply bind_done_inv in Hdone as ([] & _ & Hdone & ->).
  injection Hdone as ->.
  pose proof (train_datasetInfo p m Htrain) as Hinfo.
  rewrite Htraining in Hinfo. split; [exact Hinfo |].
  rewrite !load_infos_app.
  rewrite (@load_infos_quiet _ (check_parameters p)) by quiet_driver.
  rewrite (@load_infos_quiet _ (initial_model _ _)) by quiet_driver.
  rewrite (train_load_info p m Htraining).
  rewrite (@load_infos_quiet _ (training_error _ _)) by quiet_driver.
  rewrite testing_load_info, Htest.
  rewrite (@load_infos_quiet _ (when _ _)) by quiet_driver.
  reflexivity.
Qed.

(** *** The classifications of a run *)

Lemma filter_quiet kind {A} (m : M A) :
  quiet kind m -> filter kind (trace m) = [].
Proof.
  unfold quiet. induction (trace m) as [| e t IH]; intros H; [reflexivity |].
  inversion H as [| e' t' He Ht]; subst. simpl. rewrite He. apply IH, Ht.
Qed.

Lemma training_error_classifies_once p l :
  outcome (training_error p l) = Done tt ->
  filter is_classify (trace (training_error p l)) =
  if passed (training p) then [EvClassify true] else [].
Proof.
  unfold training_error.
  change (HasParam p "training") with (passed (training p)).
  destruct (passed (training p)); [| reflexivity]. cbn [when].
  intros H. apply bind_done_inv in H as (predicted & Hc & _ & ->).
  rewrite filter_app, (@filter_quiet is_classify _ (report_correct _ _ _))
    by quiet_driver.
  unfold call_Classify in *.
  destruct (Classify (model l) (trainingSet l)); [reflexivity | discriminate].
Qed.

Lemma testing_classifies_once p l :
  outcome (testing p l) = Done tt ->
  filter is_classify (trace (testing p l)) =
  if passed (test p) then [EvClassify true] else [].
Proof.
  unfold testing. destruct (test p) as [file |]; [| reflexivity].
  cbn [passed]. intros H.
  apply bind_done_inv in H as ([info testSet] & _ & H & ->).
  apply bind_done_inv in H as ([] & _ & H & ->).
  apply bind_done_inv in H as ([predicted probs] & Hc & _ & ->).
  rewrite !filter_app.
  rewrite (@filter_quiet is_classify _ (GetParam_tuple _ _ _))
    by quiet_driver.
  match goal with
  | |- context [filter is_classify (trace (emit (EvTimerStop ?n) ;; ?k))] =>
      rewrite (@filter_quiet is_classify _ (emit (EvTimerStop n) ;; k))
        by quiet_driver
  end.
  unfold call_ClassifyProbabilities in *.
  destruct (ClassifyProbabilities (model l) testSet);
    [reflexivity | discriminate].
Qed.

Lemma returned_silently {A} (m : M A) a :
  outcome m = Done a -> trace m = [] -> m = ret a.
Proof.
  destruct m as [o t]. simpl. intros -> ->. reflexivity.
Qed.

(** The classification of the training set: on the given model and
    training matrix, its predictions counted against the labels. *)
Lemma training_error_logs p l :
  outcome (training_error p l) = Done tt ->
  training p <> None ->
  exists predicted correct,
    Classify (model l) (trainingSet l) = Some predicted /\
    count_correct (labelsRow l) predicted = ret correct /\
    In (EvInfoCorrect "training set" correct (n_elem (labelsRow l))
          (percent_correct correct (n_elem (labelsRow l))))
       (trace (training_error p l)).
Proof.
  unfold training_error.
  change (HasParam p "training") with (passed (training p)).
  destruct (training p) as [file |]; [| congruence]. cbn [passed when].
  intros H _.
  apply bind_done_inv in H as (predicted & Hc & Hreport & ->).
  unfold call_Classify in Hc.
  destruct (Classify (model l) (trainingSet l)) as [predicted' |];
    [| discriminate].
  injection Hc as ->.
  unfold report_correct in *.
  apply bind_done_inv in Hreport as (correct & Hcount & _ & ->).
  exists predicted, correct. split; [reflexivity |].
  split; [apply returned_silently;
          [exact Hcount | apply count_correct_trace] |].
  rewrite count_correct_trace. apply in_or_app. right. left. reflexivity.
Qed.

(** The classification of the test set: on the given model and the test
    matrix loaded under the given [datasetInfo]; its predictions and
    probabilities are the ones assigned to the output parameters. *)
Lemma testing_assigns p l file :
  outcome (testing p l) = Done tt ->
  test p = Some file ->
  exists info testSet predicted probs,
    data_Load file (datasetInfo l) = Some (info, testSet) /\
    ClassifyProbabilities (model l) testSet = Some (predicted, probs) /\
    (predictions p = true ->
     In (EvSetPredictions predicted) (trace (testing p l))) /\
    (probabilities p = true ->
     In (EvSetProbabilities probs) (trace (testing p l))).
Proof.
  unfold testing. intros H Htest. rewrite Htest in *.
  apply bind_done_inv in H as ([info testSet] & Hload & H & ->).
  apply bind_done_inv in H as ([] & _ & H & ->).
  apply bind_done_inv in H as ([predicted probs] & Hc & H & ->).
  apply bind_done_inv in H as ([] & _ & H & ->).
  apply bind_done_inv in H as ([] & _ & H & ->).
  apply bind_done_inv in H as ([] & _ & _ & ->).
  unfold GetParam_tuple in Hload.
  destruct (data_Load file (datasetInfo l)) as [loaded |] eqn:Hfile;
    [| discriminate].
  injection Hload as ->.
  unfold call_ClassifyProbabilities in Hc.
  destruct (ClassifyProbabilities (model l) testSet) as [result |] eqn:Hcall;
    [| discriminate].
  injection Hc as ->.
  change (HasParam p "predictions") with (predictions p).
  change (HasParam p "probabilities") with (probabilities p).
  exists info, testSet, predicted, probs.
  split; [reflexivity |]. split; [exact Hcall |].
  split; intros ->; cbn [when]; rewrite !in_app_iff; simpl; auto 10.
Qed.

(** X5: a run that returns with the locals [l] consists of the checks,
    the choice of the model and the training phase, which ends with [l]
    and in which no classification is made, followed by the evaluation on
    the training set, the line with the number of nodes, the evaluation on
    the test set and the output of the model, in which no pass over the
    training set is taken.  So every classification comes after training,
    and in the whole run [Classify] is called once for the training set
    if one was passed, then once for the test set if one was passed.  The
    first call is the only one of the training-set evaluation: it is on
    the trained model and the training matrix, and its predictions,
    counted against the training labels, give the accuracy line logged
    for the training set.  The second is the only one of the test-set
    evaluation: it is on the trained model and the test matrix loaded
    under [datasetInfo], and its predictions and probabilities are the
    ones assigned to the output parameters. *)
Theorem classifications_of_a_run (p : CLIParams) (l : Locals) :
  outcome (mlpackMain p) = Done l ->
  let strategy := GetParam_string p "numeric_split_strategy" in
  (exists m,
     outcome (train p m) = Done l /\
     trace (mlpackMain p) =
       (trace (check_parameters p) ++ trace (initial_model p strategy) ++
        trace (train p m)) ++
       trace (training_error p l) ++
       [EvInfoNumNodes (NumNodes (model l))] ++
       trace (testing p l) ++
       trace (when (HasParam p "output_model") (emit EvSetOutputModel)) /\
     Forall (fun e => is_classify e = false)
       (trace (check_parameters p) ++ trace (initial_model p strategy) ++
        trace (train p m)) /\
     Forall (fun e => is_training_event e = false)
       (trace (training_error p l) ++
        [EvInfoNumNodes (NumNodes (model l))] ++
        trace (testing p l) ++
        trace (when (HasParam p "output_model") (emit EvSetOutputModel))))
  /\
  filter is_classify (trace (mlpackMain p)) =
    (if passed (training p) then [EvClassify true] else []) ++
    (if passed (test p) then [EvClassify true] else []) /\
  (filter is_classify (trace (training_error p l)) =
     (if passed (training p) then [EvClassify true] else []) /\
   (training p <> None ->
    exists predicted correct,
      Classify (model l) (trainingSet l) = Some predicted /\
      count_correct (labelsRow l) predicted = ret correct /\
      In (EvInfoCorrect "training set" correct (n_elem (labelsRow l))
            (percent_correct correct (n_elem (labelsRow l))))
         (trace (training_error p l)))) /\
  (filter is_classify (trace (testing p l)) =
     (if passed (test p) then [EvClassify true] else []) /\
   (forall file, test p = Some file ->
    exists info testSet predicted probs,
      data_Load file (datasetInfo l) = Some (info, testSet) /\
      ClassifyProbabilities (model l) testSet = Some (predicted, probs) /\
      (predictions p = true ->
       In (EvSetPredictions predicted) (trace (testing p l))) /\
      (probabilities p = true ->
       In (EvSetProbabilities probs) (trace (testing p l))))).
Proof.
  intros Hdone strategy. unfold mlpackMain in *.
  fold strategy in Hdone |- *.
  apply bind_done_inv in Hdone as ([] & _ & Hdone & ->).
  apply bind_done_inv in Hdone as (m & _ & Hdone & ->).
  apply bind_done_inv in Hdone as (l' & Htrain & Hdone & ->).
  apply bind_done_inv in Hdone as ([] & Herror & Hdone & ->).
  apply bind_done_inv in Hdone as ([] & _ & Hdone & ->).
  apply bind_done_inv in Hdone as ([] & Htesting & Hdone & ->).
  apply bind_done_inv in Hdone as ([] & _ & Hdone & ->).
  injection Hdone as ->.
  assert (Hbefore : Forall (fun e => is_classify e = false)
            (trace (check_parameters p) ++
             trace (initial_model p strategy) ++ trace (train p m))).
  { repeat (apply Forall_app; split).
    - change (quiet is_classify (check_parameters p)). quiet_driver.
    - change (quiet is_classify (initial_model p strategy)). quiet_driver.
    - change (quiet is_classify (train p m)). quiet_driver. }
  split; [| split; [| split]].
  - exists m. split; [exact Htrain |].
    split; [simpl; rewrite app_nil_r, <- !app_assoc; reflexivity |].
    split; [exact Hbefore |].
    repeat (apply Forall_app; split).
    + change (quiet is_training_event (training_error p l)). quiet_driver.
    + repeat constructor.
    + change (quiet is_training_event (testing p l)). quiet_driver.
    + change (quiet is_training_event
                (when (HasParam p "output_model") (emit EvSetOutputModel))).
      quiet_driver.
  - rewrite !filter_app.
    rewrite (@filter_quiet is_classify _ (check_parameters p))
      by quiet_driver.
    rewrite (@filter_quiet is_classify _ (initial_model p strategy))
      by quiet_driver.
    rewrite (@filter_quiet is_classify _ (train p m)) by quiet_driver.
    rewrite (training_error_classifies_once p l Herror).
    rewrite (testing_classifies_once p l Htesting).
    rewrite (@filter_quiet is_classify _ (when _ _)) by quiet_driver.
    simpl. rewrite !app_nil_r. reflexivity.
  - split; [exact (training_error_classifies_once p l Herror) |].
    exact (training_error_logs p l Herror).
  - split; [exact (testing_classifies_once p l Htesting) |].
    intros file. exact (testing_assigns p l Htesting).
Qed.

(** *** A negative pass count *)

Lemma to_size_t_negative n :
  - size_t_modulus <= n < 0 -> to_size_t n = size_t_modulus + n.
Proof.
  intros H. unfold to_size_t.
  rewrite <- (Z_mod_plus_full n 1 size_t_modulus).
  replace (n + 1 * size_t_modulus) with (size_t_modulus + n) by lia.
  apply Z.mod_small. lia.
Qed.

(** X6: a negative pass count is not rejected: the cast to [size_t] turns
    n into 2^64 + n, which is above one, so the run is a streaming run
    whatever [batch_mode] says, and if it returns it has completed
    2^64 + n passes. *)
Theorem negative_pass_count (p : CLIParams) (n : Z) :
  passes p = Some n -> is_int n -> n < 0 ->
  requested_passes p = 2 ^ 64 + n /\
  effective_batchTraining p = false /\
  Forall (fun e => is_batch_pass e = false) (trace (mlpackMain p)) /\
  (forall l, outcome (mlpackMain p) = Done l -> training p <> None ->
     Z.of_nat (List.length (completed_passes (trace (mlpackMain p)))) =
     2 ^ 64 + n).
Proof.
  intros Hp Hint Hneg.
  assert (Hreq : requested_passes p = 2 ^ 64 + n).
  { unfold requested_passes.
    change (GetParam_int p "passes") with (value_or 1 (passes p)).
    rewrite Hp. cbn [value_or].
    apply to_size_t_negative. unfold is_int, size_t_modulus in *. lia. }
  assert (Hstream : effective_batchTraining p = false).
  { unfold effective_batchTraining. rewrite Hreq.
    assert (Hlt : 1 < 2 ^ 64 + n) by (unfold is_int in Hint; lia).
    apply Z.ltb_lt in Hlt. rewrite Hlt. reflexivity. }
  split; [exact Hreq |]. split; [exact Hstream |].
  split; [apply streaming_run_takes_no_batch_pass, Hstream |].
  intros l Hdone Htraining.
  destruct (mlpackMain_done p Hdone) as (m & Htrain & ->).
  rewrite (train_done p m Htrain Htraining), Hstream, Hreq.
  assert (Hpred : size_t_pred (2 ^ 64 + n) = 2 ^ 64 + n - 1).
  { apply size_t_pred_pos. unfold is_int, size_t_modulus in *. lia. }
  unfold is_int in Hint.
  destruct (input_model p); cbn [List.length];
    rewrite ?Hpred, repeat_length; lia.
Qed.

(** *** The model a run leaves *)

Lemma outcome_for_each_emit (g : nat -> Event) indices :
  outcome (for_each indices (fun i => emit (g i))) = Done tt.
Proof.
  induction indices as [| i rest IH]; [reflexivity |].
  cbn [for_each]. rewrite bind_emit. exact IH.
Qed.

Lemma outcome_ret {A} (a : A) : outcome (ret a) = Done a.
Proof. reflexivity. Qed.

Lemma outcome_emit_bind {B} e (k : unit -> M B) :
  outcome (bind (emit e) k) = outcome (k tt).
Proof. rewrite bind_emit. reflexivity. Qed.

(** The streaming loop returns what the passes, composed, return. *)
Lemma streaming_loop_outcome X ls n m :
  outcome (for_loop n (call_Train X ls false) m) =
  match Train_passes X ls n m with
  | Some m' => Done m'
  | None => Failed (Exception "Train")
  end.
Proof.
  unfold for_loop, Train_passes.
  induction (Z.to_N n) as [| k IH] using N.peano_ind; [reflexivity |].
  rewrite !N.iter_succ, outcome_bind, IH.
  destruct (N.iter k _ (Some m)) as [m1 |]; [| reflexivity].
  unfold call_Train. destruct (Train m1 X ls false); reflexivity.
Qed.

(** The training phase returns exactly when every model call returns,
    and then leaves the model these calls compose to. *)
Lemma train_outcome p m file info X :
  training p = Some file ->
  data_Load file DatasetInfo_default = Some (info, X) ->
  match trained_model p m X info with
  | Some m' =>
      outcome (train p m) =
      Done {| model := m'; datasetInfo := info; trainingSet := X;
              labelsRow := GetParam_urow p "labels" |}
  | None => exists callee, outcome (train p m) = Failed (Exception callee)
  end.
Proof.
  intros Htraining Hload. unfold train, GetParam_tuple.
  rewrite Htraining, Hload.
  rewrite bind_assoc, bind_emit. cbn [outcome fst]. rewrite bind_ret.
  rewrite outcome_bind, outcome_for_each_emit, outcome_bind.
  unfold training_passes, trained_model.
  rewrite bind_emit. cbn [outcome fst].
  change (HasParam p "input_model") with (passed (input_model p)).
  destruct (input_model p) as [loaded |]; cbn [passed negb].
  - rewrite bind_ret, outcome_bind.
    destruct (effective_batchTraining p).
    + unfold call_Train.
      destruct (Train m X (GetParam_urow p "labels") true);
        [reflexivity | eexists; reflexivity].
    + rewrite streaming_loop_outcome.
      destruct (Train_passes _ _ _ _); [reflexivity | eexists; reflexivity].
  - unfold arma_max, num_classes.
    destruct (GetParam_urow p "labels") as [| x rest];
      [eexists; reflexivity |].
    rewrite bind_ret, bind_assoc, outcome_bind. unfold call_BuildModel.
    match goal with
    | |- context [BuildModel ?a ?b ?c ?d ?e ?f ?g ?h ?i ?j ?k ?l] =>
        destruct (BuildModel a b c d e f g h i j k l) as [built |]
    end; [| eexists; reflexivity].
    rewrite outcome_emit_bind, outcome_ret. cbv beta iota.
    rewrite bind_ret, outcome_bind.
    destruct (effective_batchTraining p); [reflexivity |].
    rewrite streaming_loop_outcome.
    destruct (Train_passes _ _ _ _); [reflexivity | eexists; reflexivity].
Qed.

Lemma initial_model_outcome p m :
  known_strategy p = true ->
  outcome (initial_model p (GetParam_string p "numeric_split_strategy"))
    = Done m ->
  m = starting_model p.
Proof.
  intros Hknown. unfold starting_model.
  destruct (input_model p) as [loaded |] eqn:Hmodel.
  - unfold initial_model. rewrite Hmodel. intros H. injection H as <-.
    reflexivity.
  - rewrite (initial_model_new p Hmodel Hknown). intros H.
    injection H as <-. reflexivity.
Qed.

(** X7: the model a returning run with a training set leaves in [model]
    is the composition of the model calls on the starting model (the
    input model, or a new model of the selected type): [BuildModel] for a
    new model, then the passes one after another, each on the model the
    previous call returned; whenever that composition is defined the
    training phase returns it.  With an input model, a pass count of 0
    and no [batch_mode], it is the input model itself. *)
Theorem model_left_by_training (p : CLIParams) (file : MatrixFile)
    (info : DatasetInfo) (X : mat) :
  training p = Some file ->
  data_Load file DatasetInfo_default = Some (info, X) ->
  (forall l, outcome (mlpackMain p) = Done l ->
     trained_model p (starting_model p) X info = Some (model l)) /\
  (forall m m', trained_model p m X info = Some m' ->
     outcome (train p m) =
     Done {| model := m'; datasetInfo := info; trainingSet := X;
             labelsRow := GetParam_urow p "labels" |}) /\
  (forall loaded, input_model p = Some loaded ->
     passes p = Some 0 -> batch_mode p = false ->
     trained_model p loaded X info = Some loaded).
Proof.
  intros Htraining Hload. split; [| split].
  - intros l Hdone. unfold mlpackMain in Hdone.
    apply bind_done_inv in Hdone as ([] & Hchecks & Hdone & _).
    apply bind_done_inv in Hdone as (m & Hinit & Hdone & _).
    apply bind_done_inv in Hdone as (l' & Htrain & Hdone & _).
    apply bind_done_inv in Hdone as ([] & _ & Hdone & _).
    apply bind_done_inv in Hdone as ([] & _ & Hdone & _).
    apply bind_done_inv in Hdone as ([] & _ & Hdone & _).
    apply bind_done_inv in Hdone as ([] & _ & Hdone & _).
    injection Hdone as ->.
    destruct (checks_passed p Hchecks) as (_ & _ & Hknown).
    rewrite <- (initial_model_outcome p Hknown Hinit).
    pose proof (train_outcome p m Htraining Hload) as Hout.
    destruct (trained_model p m X info) as [m' |].
    + rewrite Hout in Htrain. injection Htrain as <-. reflexivity.
    + destruct Hout as [callee Hout]. congruence.
  - intros m m' Hm. pose proof (train_outcome p m Htraining Hload) as Hout.
    rewrite Hm in Hout. exact Hout.
  - intros loaded Hmodel Hp Hbatch. unfold trained_model.
    rewrite Hmodel.
    destruct (zero_passes p Hp) as [Hzero _].
    unfold effective_batchTraining. rewrite Hzero.
    change (HasParam p "batch_mode") with (batch_mode p).
    rewrite Hbatch. reflexivity.
Qed.

(** *** Options that are not read *)

Lemma without_warnings_app t1 t2 :
  without_warnings (t1 ++ t2) = without_warnings t1 ++ without_warnings t2.
Proof. apply filter_app. Qed.

Lemma check_parameters_without_warnings p :
  without_warnings (trace (check_parameters p)) = [].
Proof.
  apply (@filter_quiet (fun e => negb (is_warning e))).
  apply check_parameters_warns.
Qed.

Lemma modulo_warnings_bind {A B} (m1 m2 : M A) (f : A -> M B) :
  outcome m1 = outcome m2 ->
  without_warnings (trace m1) = without_warnings (trace m2) ->
  outcome (bind m1 f) = outcome (bind m2 f) /\
  without_warnings (trace (bind m1 f)) =
    without_warnings (trace (bind m2 f)).
Proof.
  intros Ho Ht.
  rewrite (outcome_bind m1), (outcome_bind m2), (trace_bind m1),
    (trace_bind m2), !without_warnings_app, Ho, Ht.
  split; reflexivity.
Qed.

Lemma RequireParamInSet_known p :
  RequireParamInSet p "numeric_split_strategy"
    ["domingos"; "binary"]%string true "unrecognized numeric split strategy" =
  if known_strategy p
  then ret tt
  else fail (Fatal "unrecognized numeric split strategy").
Proof. reflexivity. Qed.

(** The phases after the checks read none of the options that only
    training reads, when there is no training set. *)
Lemma after_checks_without_training p ls batch n nbins obb :
  training p = None ->
  let p' := with_training_options ls batch n nbins obb p in
  forall k : Locals -> M Locals,
    (m <- initial_model p' (GetParam_string p' "numeric_split_strategy") ;;
     l <- train p' m ;;
     training_error p' l ;;
     emit (EvInfoNumNodes (NumNodes (model l))) ;;
     testing p' l ;;
     when (HasParam p' "output_model") (emit EvSetOutputModel) ;;
     k l) =
    (m <- initial_model p (GetParam_string p "numeric_split_strategy") ;;
     l <- train p m ;;
     training_error p l ;;
     emit (EvInfoNumNodes (NumNodes (model l))) ;;
     testing p l ;;
     when (HasParam p "output_model") (emit EvSetOutputModel) ;;
     k l).
Proof.
  intros Htraining p' k.
  unfold initial_model, train, training_error, testing, GetParam_string,
    GetParam_urow, HasParam.
  simpl. rewrite Htraining. reflexivity.
Qed.

(** X8: without a training set, the labels, [batch_mode], the pass count,
    the bin count and the observations before binning are not used:
    whatever their values the run has the same outcome and, warnings
    apart, the same trace. *)
Theorem training_options_unused_without_training (p : CLIParams)
    (ls : option urow) (batch : bool) (n nbins obb : option Z) :
  training p = None ->
  outcome (mlpackMain (with_training_options ls batch n nbins obb p)) =
    outcome (mlpackMain p) /\
  without_warnings
    (trace (mlpackMain (with_training_options ls batch n nbins obb p))) =
    without_warnings (trace (mlpackMain p)).
Proof.
  intros Htraining. unfold mlpackMain.
  rewrite (bind_ext
             (check_parameters (with_training_options ls batch n nbins obb p))
             _ _
             (fun _ => after_checks_without_training p ls batch n nbins obb
                         Htraining (fun l => ret l))).
  apply modulo_warnings_bind.
  - rewrite !check_parameters_outcome.
    change (training (with_training_options ls batch n nbins obb p))
      with (training p).
    change (input_model (with_training_options ls batch n nbins obb p))
      with (input_model p).
    change (known_strategy (with_training_options ls batch n nbins obb p))
      with (known_strategy p).
    rewrite Htraining. reflexivity.
  - rewrite !check_parameters_without_warnings. reflexivity.
Qed.

(** With an input model the phases after the checks do not read the
    options that select the type of a new model. *)
Lemma after_checks_with_input_model p gain strategy loaded :
  input_model p = Some loaded ->
  let p' := with_model_options gain strategy p in
  forall k : Locals -> M Locals,
    (m <- initial_model p' (GetParam_string p' "numeric_split_strategy") ;;
     l <- train p' m ;;
     training_error p' l ;;
     emit (EvInfoNumNodes (NumNodes (model l))) ;;
     testing p' l ;;
     when (HasParam p' "output_model") (emit EvSetOutputModel) ;;
     k l) =
    (m <- initial_model p (GetParam_string p "numeric_split_strategy") ;;
     l <- train p m ;;
     training_error p l ;;
     emit (EvInfoNumNodes (NumNodes (model l))) ;;
     testing p l ;;
     when (HasParam p "output_model") (emit EvSetOutputModel) ;;
     k l).
Proof.
  intros Hmodel p' k.
  unfold initial_model, train, training_passes, effective_batchTraining,
    requested_passes, training_error, testing, GetParam_string,
    GetParam_urow, GetParam_int, GetParam_double, HasParam.
  simpl. rewrite Hmodel. reflexivity.
Qed.

Lemma checks_with_model_options p gain strategy :
  known_strategy p = true ->
  known_strategy (with_model_options gain strategy p) = true ->
  check_parameters (with_model_options gain strategy p) = check_parameters p.
Proof.
  intros Hknown Hknown'. unfold check_parameters.
  rewrite !RequireParamInSet_known, Hknown, Hknown'.
  unfold RequireAtLeastOnePassed, RequireOnlyOnePassed, ReportIgnoredParam,
    count_passed, HasParam.
  simpl. reflexivity.
Qed.

(** X9: with an input model, [info_gain] and the numeric split strategy
    have no effect on the run, provided the strategy name passes the
    check: the run is the same with either known strategy and with or
    without [info_gain]. *)
Theorem model_options_unused_with_input_model (p : CLIParams) (gain : bool)
    (strategy : option string) :
  input_model p <> None ->
  known_strategy p = true ->
  known_strategy (with_model_options gain strategy p) = true ->
  mlpackMain (with_model_options gain strategy p) = mlpackMain p.
Proof.
  intros Hmodel Hknown Hknown'.
  destruct (input_model p) as [loaded |] eqn:Hloaded; [| congruence].
  unfold mlpackMain.
  rewrite (checks_with_model_options p gain strategy Hknown Hknown').
  apply bind_ext. intros [].
  apply (after_checks_with_input_model p gain strategy Hloaded
           (fun l => ret l)).
Qed.

(** *** The counting loop *)

Lemma matching_positions_bounds labels predictions :
  0 <= matching_positions labels predictions <= n_elem labels.
Proof.
  unfold matching_positions, n_elem.
  pose proof (filter_length_le
                (fun i => nth i labels 0 =? nth i predictions 0)
                (seq 0 (List.length labels))) as H.
  rewrite length_seq in H. lia.
Qed.

Lemma filter_all {A} (f : A -> bool) (xs : list A) :
  List.length (filter f xs) = List.length xs <->
  forall x, In x xs -> f x = true.
Proof.
  induction xs as [| x rest IH]; simpl.
  - split; [intros _ y [] | reflexivity].
  - pose proof (filter_length_le f rest) as Hle.
    destruct (f x) eqn:Hx; simpl.
    + split.
      * intros H y [<- | Hy]; [exact Hx |].
        apply (proj1 IH); [lia | exact Hy].
      * intros H. f_equal. apply IH. intros y Hy. apply H. right. exact Hy.
    + split; [lia |]. intros H.
      rewrite (H x (or_introl eq_refl)) in Hx. discriminate.
Qed.

Lemma matching_positions_all labels predictions :
  matching_positions labels predictions = n_elem labels <->
  forall i, (i < List.length labels)%nat ->
            nth i labels 0 = nth i predictions 0.
Proof.
  unfold matching_positions, n_elem. rewrite Nat2Z.inj_iff.
  pose proof (filter_all (fun i => nth i labels 0 =? nth i predictions 0)
                (seq 0 (List.length labels))) as Hall.
  rewrite length_seq in Hall. rewrite Hall. split.
  - intros H i Hi. apply Z.eqb_eq, H, in_seq. lia.
  - intros H i Hi. apply in_seq in Hi. apply Z.eqb_eq, H. lia.
Qed.

Lemma matching_positions_prefix labels predictions extra :
  (List.length labels <= List.length predictions)%nat ->
  matching_positions labels (predictions ++ extra) =
  matching_positions labels predictions.
Proof.
  intros Hlen. unfold matching_positions. do 2 f_equal.
  apply filter_ext_in. intros i Hi. apply in_seq in Hi.
  rewrite app_nth1 by lia. reflexivity.
Qed.

(** X10: for labels no longer than the predictions, the loop counts only
    over the label positions: predictions beyond the last label do not
    change the count.  The count lies between 0 and the number of
    labels, and equals the number of labels exactly when every label
    equals its prediction.  Without labels the logged line is 0 out of 0
    with a percentage of 0/0, not a number. *)
Theorem count_correct_over_label_positions (labels predictions : urow) :
  (List.length labels <= List.length predictions)%nat ->
  n_elem labels < size_t_modulus ->
  (forall extra,
     count_correct labels (predictions ++ extra) =
     count_correct labels predictions) /\
  (exists c,
     count_correct labels predictions = ret c /\
     0 <= c <= n_elem labels /\
     (c = n_elem labels <->
      forall i, (i < List.length labels)%nat ->
                nth i labels 0 = nth i predictions 0)) /\
  (forall set other,
     report_correct set [] other =
     (Done tt, [EvInfoCorrect set 0 0 S754_nan])).
Proof.
  intros Hlen Hsize. split; [| split].
  - intros extra.
    rewrite !count_correct_matching; trivial.
    + rewrite matching_positions_prefix by exact Hlen. reflexivity.
    + rewrite length_app. lia.
  - exists (matching_positions labels predictions).
    split; [apply count_correct_matching; assumption |].
    split; [apply matching_positions_bounds |].
    apply matching_positions_all.
  - intros set other. reflexivity.
Qed.

(** *** The arguments of [BuildModel] *)

Lemma fold_left_max_ge rest : forall x,
  x <= fold_left Z.max rest x /\
  forall y, In y rest -> y <= fold_left Z.max rest x.
Proof.
  induction rest as [| z rest IH]; intros x; simpl.
  - split; [lia | intros y []].
  - destruct (IH (Z.max x z)) as [H1 H2]. split; [lia |].
    intros y [<- | Hy]; [lia | apply H2, Hy].
Qed.

Lemma fold_left_max_le rest bound : forall x,
  x <= bound -> (forall y, In y rest -> y <= bound) ->
  fold_left Z.max rest x <= bound.
Proof.
  induction rest as [| z rest IH]; intros x Hx Hrest; simpl; [exact Hx |].
  apply IH.
  - pose proof (Hrest z (or_introl eq_refl)). lia.
  - intros y Hy. apply Hrest. right. exact Hy.
Qed.

Lemma train_BuildModel_arguments p m :
  quiet (is_other_BuildModel (num_classes (GetParam_urow p "labels")))
        (train p m).
Proof.
  unfold train. destruct (training p) as [file |]; [| apply quiet_ret].
  apply quiet_bind; [quiet_driver |]. intros [info X].
  apply quiet_bind; [quiet_driver |]. intros [].
  apply quiet_bind; [| intros; apply quiet_ret].
  unfold training_passes.
  apply quiet_bind; [quiet_driver |]. intros [].
  apply quiet_bind; [| intros [built left]; quiet_driver].
  destruct (negb (HasParam p "input_model")); [| apply quiet_ret].
  unfold arma_max.
  destruct (GetParam_urow p "labels") as [| x rest];
    [rewrite bind_fail; apply quiet_fail |].
  rewrite bind_ret.
  apply quiet_bind; [| intros; apply quiet_ret].
  unfold call_BuildModel.
  match goal with
  | |- context [BuildModel ?a ?b ?c ?d ?e ?f ?g ?h ?i ?j ?k ?l] =>
      destruct (BuildModel a b c d e f g h i j k l)
  end;
    (apply quiet_bind; [| intros; quiet_driver]);
    apply quiet_emit; cbn [is_other_BuildModel num_classes];
    rewrite !Z.eqb_refl; reflexivity.
Qed.

(** X11: every [BuildModel] call of a run is handed a check interval of
    100 and, as the number of classes, the largest label plus one in
    [size_t] arithmetic.  For labels below 2^64 - 1 that number is above
    every label; if 2^64 - 1 occurs among the labels it wraps to 0. *)
Theorem BuildModel_class_count (p : CLIParams) :
  Forall (fun e =>
            is_other_BuildModel (num_classes (GetParam_urow p "labels")) e
            = false)
         (trace (mlpackMain p)) /\
  (forall labels,
     (forall x, In x labels -> 0 <= x < SIZE_MAX) ->
     forall x, In x labels -> x < num_classes labels) /\
  (forall labels,
     (forall x, In x labels -> 0 <= x <= SIZE_MAX) ->
     In SIZE_MAX labels -> num_classes labels = 0).
Proof.
  split; [| split].
  - change (quiet (is_other_BuildModel
                     (num_classes (GetParam_urow p "labels")))
                  (mlpackMain p)).
    unfold mlpackMain.
    apply quiet_bind; [quiet_driver |]. intros [].
    apply quiet_bind; [quiet_driver |]. intros m.
    apply quiet_bind; [apply train_BuildModel_arguments |].
    intros l. quiet_driver.
  - intros labels Hrange x Hx.
    destruct labels as [| y rest]; [destruct Hx |].
    cbn [num_classes].
    destruct (fold_left_max_ge rest y) as [Hy Hrest].
    assert (Hmax : 0 <= fold_left Z.max rest y < SIZE_MAX).
    { split.
      - pose proof (Hrange y (or_introl eq_refl)). lia.
      - assert (H : fold_left Z.max rest y <= SIZE_MAX - 1).
        { apply fold_left_max_le.
          - pose proof (Hrange y (or_introl eq_refl)). lia.
          - intros z Hz. pose proof (Hrange z (or_intror Hz)). lia. }
        lia. }
    unfold size_t_succ. rewrite Z.mod_small
      by (unfold SIZE_MAX in Hmax; lia).
    destruct Hx as [<- | Hx]; [lia |].
    pose proof (Hrest x Hx). lia.
  - intros labels Hrange Hin.
    destruct labels as [| y rest]; [destruct Hin |].
    cbn [num_classes].
    assert (Hmax : fold_left Z.max rest y = SIZE_MAX).
    { apply Z.le_antisymm.
      - apply fold_left_max_le.
        + apply (Hrange y (or_introl eq_refl)).
        + intros z Hz. apply (Hrange z (or_intror Hz)).
      - destruct (fold_left_max_ge rest y) as [Hy Hrest].
        destruct Hin as [<- | Hin]; [exact Hy | apply Hrest, Hin]. }
    rewrite Hmax. reflexivity.
Qed.

End MoreDriverFacts.

(* ================================================================== *)
(** ** The further properties on concrete command lines *)

Lemma parameter_checks_accept_iff_witness :
  exists message,
    outcome (mlpackMain run_without_model) = Failed (Fatal message) /\
    Forall (fun e => is_warning e = true)
           (trace (mlpackMain run_without_model)).
Proof.
  apply (proj2 (proj2 (parameter_checks_accept_iff run_without_model))).
  discriminate.
Defined.

Lemma no_test_set_no_test_output_witness :
  Forall (fun e => is_test_event e = false)
         (trace (mlpackMain run_three_passes)).
Proof.
  apply (no_test_set_no_test_output run_three_passes). reflexivity.
Defined.

Lemma output_model_assigned_last_witness :
  exists t,
    trace (mlpackMain run_three_passes) = t ++ [EvSetOutputModel] /\
    Forall (fun e => is_output_model e = false) t.
Proof.
  destruct (output_model_assigned_last run_three_passes)
    as (_ & _ & Hlast).
  apply (Hlast locals_three_passes); reflexivity.
Defined.

Lemma test_set_loaded_under_training_info_witness :
  load_infos (trace (mlpackMain run_train_and_test)) =
  [("training"%string, DatasetInfo_default);
   ("test"%string, [categorical 2])].
Proof.
  exact (proj2 (test_set_loaded_under_training_info run_train_and_test
                  (file := four_points_file) (testFile := four_points_file)
                  (l := locals_one_pass) eq_refl eq_refl eq_refl)).
Defined.

Lemma classifications_of_a_run_witness :
  filter is_classify (trace (mlpackMain run_train_and_test)) =
    [EvClassify true; EvClassify true] /\
  exists predicted correct,
    Classify (model locals_one_pass) (trainingSet locals_one_pass) =
      Some predicted /\
    count_correct (labelsRow locals_one_pass) predicted = ret correct /\
    In (EvInfoCorrect "training set" correct
          (n_elem (labelsRow locals_one_pass))
          (percent_correct correct (n_elem (labelsRow locals_one_pass))))
       (trace (training_error run_train_and_test locals_one_pass)).
Proof.
  destruct (classifications_of_a_run run_train_and_test
              (l := locals_one_pass) eq_refl)
    as (_ & Hcalls & (_ & Hfirst) & _).
  split; [exact Hcalls |]. apply Hfirst. discriminate.
Defined.

Lemma negative_pass_count_witness :
  requested_passes run_minus_one_pass = 2 ^ 64 + -1 /\
  effective_batchTraining run_minus_one_pass = false.
Proof.
  assert (Hint : is_int (-1)) by (unfold is_int; lia).
  assert (Hneg : -1 < 0) by lia.
  destruct (negative_pass_count run_minus_one_pass (n := -1)
              eq_refl Hint Hneg) as (Hcast & Hstream & _).
  split; assumption.
Defined.

Lemma model_left_by_training_witness :
  trained_model run_three_passes (starting_model run_three_passes)
    four_points [categorical 2] =
  Some (model locals_three_passes).
Proof.
  destruct (model_left_by_training run_three_passes
              (file := four_points_file) (info := [categorical 2])
              (X := four_points) eq_refl eq_refl) as (Hleft & _).
  apply Hleft. reflexivity.
Defined.

Lemma training_options_unused_without_training_witness :
  outcome (mlpackMain
             (with_training_options (Some [0; 1]) true (Some 7) (Some 3)
                (Some 5) run_test_only)) =
  outcome (mlpackMain run_test_only).
Proof.
  exact (proj1 (training_options_unused_without_training run_test_only
                  (Some [0; 1]) true (Some 7) (Some 3) (Some 5) eq_refl)).
Defined.

Lemma model_options_unused_with_input_model_witness :
  mlpackMain (with_model_options true (Some "domingos"%string)
                run_confidence_2) =
  mlpackMain run_confidence_2.
Proof.
  apply (model_options_unused_with_input_model run_confidence_2 true
           (Some "domingos"%string)); [discriminate | reflexivity ..].
Defined.

Lemma count_correct_over_label_positions_witness :
  count_correct [0; 1; 1; 0] ([0; 1; 0; 0] ++ [1; 1]) =
  count_correct [0; 1; 1; 0] [0; 1; 0; 0].
Proof.
  assert (Hlen : (List.length [0; 1; 1; 0] <=
                  List.length [0; 1; 0; 0])%nat) by (simpl; lia).
  assert (Hsize : n_elem [0; 1; 1; 0] < size_t_modulus) by reflexivity.
  exact (proj1 (count_correct_over_label_positions
                  [0; 1; 1; 0] [0; 1; 0; 0] Hlen Hsize) [1; 1]).
Defined.

Lemma BuildModel_class_count_witness :
  1 < num_classes [0; 1; 0; 1].
Proof.
  destruct (BuildModel_class_count run_three_passes) as (_ & Habove & _).
  apply (Habove [0; 1; 0; 1]).
  - intros x Hx. simpl in Hx. unfold SIZE_MAX, size_t_modulus.
    repeat (destruct Hx as [<- | Hx]; [lia |]). destruct Hx.
  - simpl. auto.
Defined.
